(** * Aqueeq's preconditioned binomial series: [(x + y) ** alpha]

    A shallow embedding of [src/aqueeq_binomial.py] and the properties of
    its edge-case resolver, preconditioner, boundary policy and series loop.

    Numbers are modelled as the interpreter has them.  A Python [float] is an
    IEEE 754 binary64 value, here Rocq's primitive [float]; a Python
    [complex] is a pair of them, with the arithmetic of CPython's
    [Objects/complexobject.c] written out.  A Python [int] is a [Z].  The
    functions of the C mathematics library that the program calls ([hypot]
    behind [abs], [pow] behind [**], [cmath.exp], [cmath.log]) are the
    fields of the class [Libm]: every theorem holds for every
    implementation of them.  Library calls can raise, and warnings are
    collected beside the result. *)

From Stdlib Require Import ZArith List Bool Lia Floats String.
Import ListNotations.
Set Warnings "-inexact-float".
Local Open Scope Z_scope.

(** ** Outcomes of a call *)

(** Exceptions of the numeric library, as CPython raises them. *)
Inductive lib_error : Type :=
| OverflowError
| ZeroDivisionError
| ValueError.

(** What a call into the library comes to: a value or an exception.
    [OutOfFuel] is the end of the fuel of a loop of the model, which the
    loops of the program never reach (see [aqueeq_binomial_total]). *)
Inductive result (A : Type) : Type :=
| Ok (a : A)
| Raise (e : lib_error)
| OutOfFuel.
Arguments Ok {A} a.
Arguments Raise {A} e.
Arguments OutOfFuel {A}.

Definition rbind {A B : Type} (r : result A) (k : A -> result B) : result B :=
  match r with
  | Ok a => k a
  | Raise e => Raise e
  | OutOfFuel => OutOfFuel
  end.

(** What a function of the C library comes to. *)
Inductive libcall (A : Type) : Type :=
| Returns (a : A)
| Raises (e : lib_error).
Arguments Returns {A} a.
Arguments Raises {A} e.

Definition of_libcall {A : Type} (c : libcall A) : result A :=
  match c with
  | Returns a => Ok a
  | Raises e => Raise e
  end.
Coercion of_libcall : libcall >-> result.

Declare Scope result_scope.
Delimit Scope result_scope with result.
Notation "x <- e ;; k" := (rbind e (fun x => k))
  (at level 61, e at next level, right associativity) : result_scope.

(** ** Floats *)

Module PyFloat.

(** [math.isfinite]. *)
Definition isfinite (f : float) : bool :=
  match Prim2SF f with
  | S754_zero _ | S754_finite _ _ _ => true
  | S754_infinity _ | S754_nan => false
  end.

Definition isinf (f : float) : bool :=
  match Prim2SF f with
  | S754_infinity _ => true
  | _ => false
  end.

(** Python's comparison operators on floats. *)
Definition eq (a b : float) : bool := PrimFloat.eqb a b.
Definition ne (a b : float) : bool := negb (PrimFloat.eqb a b).
Definition lt (a b : float) : bool := PrimFloat.ltb a b.
Definition le (a b : float) : bool := PrimFloat.leb a b.
Definition gt (a b : float) : bool := PrimFloat.ltb b a.
Definition ge (a b : float) : bool := PrimFloat.leb b a.

(** A zero of either sign, and a finite float that is not zero. *)
Definition is_zero (w : float) : Prop := exists s, Prim2SF w = S754_zero s.

Definition is_nonzero (w : float) : Prop :=
  exists s m e, Prim2SF w = S754_finite s m e.

(** [float.is_integer]: finite and equal to its floor. *)
Definition is_integer (f : float) : bool :=
  match Prim2SF f with
  | S754_zero _ => true
  | S754_finite _ m e =>
      (0 <=? e) || (Z.pos m mod 2 ^ (- e) =? 0)
  | S754_infinity _ | S754_nan => false
  end.

(** [float(k)] for an [int] [k] ([PyLong_AsDouble]): rounded to nearest
    even, [OverflowError] beyond the largest float. *)
Definition of_int (k : Z) : result float :=
  let f := SF2Prim (binary_normalize prec emax k 0 false) in
  if isinf f then Raise OverflowError else Ok f.

(** [float.as_integer_ratio]: the exact value as a fraction in lowest
    terms. *)
Definition as_integer_ratio (f : float) : result (Z * Z) :=
  match Prim2SF f with
  | S754_nan => Raise ValueError
  | S754_infinity _ => Raise OverflowError
  | S754_zero _ => Ok (0, 1)
  | S754_finite s m e =>
      let n := cond_Zopp s (Z.pos m) in
      if 0 <=? e then Ok (n * 2 ^ e, 1)
      else
        let d := 2 ^ (- e) in
        let g := Z.gcd n d in
        Ok (n / g, d / g)
  end.

End PyFloat.

(** ** The [fractions] module *)

Module Fraction.

Record t : Type := mk { numerator : Z; denominator : Z }.

(** [Fraction(n, d)]: normalised, with a positive denominator. *)
Definition make (n d : Z) : result t :=
  if d =? 0 then Raise ZeroDivisionError
  else
    let g := Z.gcd n d in
    let g := if d <? 0 then - g else g in
    Ok (mk (n / g) (d / g)).

(** [Fraction(f)] for a float [f]. *)
Definition of_float (f : float) : result t :=
  (nd <- PyFloat.as_integer_ratio f ;;
   Ok (mk (fst nd) (snd nd)))%result.

(** [abs(a - b)] as an exact fraction (not reduced; the denominator is
    positive when those of [a] and [b] are), and [<=] on such. *)
Definition abs_diff (a b : t) : t :=
  mk (Z.abs (numerator a * denominator b - numerator b * denominator a))
     (denominator a * denominator b).

Definition le (a b : t) : bool :=
  numerator a * denominator b <=? numerator b * denominator a.

(** The [while True] loop of [limit_denominator]: the state is
    [(p0, q0, p1, q1, n, d)]; it leaves by [break] with the state it
    had, or by the [ZeroDivisionError] of [n // d]. *)
Fixpoint convergents (fuel : nat) (max_denominator : Z)
    (p0 q0 p1 q1 n d : Z) : result (Z * Z * Z * Z * Z * Z) :=
  match fuel with
  | O => OutOfFuel
  | S fuel' =>
      if d =? 0 then Raise ZeroDivisionError
      else
        let a := n / d in
        let q2 := q0 + a * q1 in
        if max_denominator <? q2 then Ok (p0, q0, p1, q1, n, d)
        else
          convergents fuel' max_denominator
            p1 q1 (p0 + a * p1) q2 d (n - a * d)
  end.

(** Iterations the loop can need: [q0 + q1] grows at every iteration
    after the first and never passes [2 * max_denominator]. *)
Definition convergents_fuel (max_denominator : Z) : nat :=
  Z.to_nat (2 * max_denominator + 3).

(** [Fraction.limit_denominator]. *)
Definition limit_denominator (self : t) (max_denominator : Z) : result t :=
  if max_denominator <? 1 then Raise ValueError
  else if denominator self <=? max_denominator then Ok self
  else
    (st <- convergents (convergents_fuel max_denominator) max_denominator
             0 1 1 0 (numerator self) (denominator self) ;;
     let '(p0, q0, p1, q1, _, _) := st in
     if q1 =? 0 then Raise ZeroDivisionError
     else
       let k := (max_denominator - q0) / q1 in
       bound1 <- make (p0 + k * p1) (q0 + k * q1) ;;
       bound2 <- make p1 q1 ;;
       if le (abs_diff bound2 self) (abs_diff bound1 self)
       then Ok bound2 else Ok bound1)%result.

End Fraction.

(** ** Complex numbers *)

Record complex : Type := Complex { real : float; imag : float }.

(** The C library behind CPython's arithmetic. *)
Class Libm : Type := {
  (** C [hypot], called by [abs] on finite components. *)
  hypot : float -> float -> float;
  (** [float.__pow__] *)
  float_pow : float -> float -> libcall float;
  (** [complex.__pow__] *)
  complex_pow : complex -> complex -> libcall complex;
  (** [cmath.exp] *)
  cmath_exp : complex -> libcall complex;
  (** [cmath.log], principal branch *)
  cmath_log : complex -> libcall complex
}.

Module PyComplex.

Local Open Scope float_scope.

Definition zero : complex := Complex 0 0.
Definition one : complex := Complex 1 0.

(** [complex(f)] *)
Definition of_float (f : float) : complex := Complex f 0.

(** An [int] operand of a complex operation is converted first. *)
Definition of_int (k : Z) : result complex :=
  (f <- PyFloat.of_int k ;; Ok (of_float f))%result.

(** [_Py_c_sum], [_Py_c_diff], [_Py_c_neg], [_Py_c_prod]. *)
Definition sum (a b : complex) : complex :=
  Complex (real a + real b) (imag a + imag b).

Definition diff (a b : complex) : complex :=
  Complex (real a - real b) (imag a - imag b).

Definition neg (a : complex) : complex :=
  Complex (- real a) (- imag a).

Definition prod (a b : complex) : complex :=
  Complex (real a * real b - imag a * imag b)
          (real a * imag b + imag a * real b).

(** [b < 0 ? -b : b], as [_Py_c_quot] takes absolute values. *)
Definition fabs (a : float) : float := if a <? 0 then - a else a.

(** [complex_div]: [_Py_c_quot], whose [EDOM] becomes
    [ZeroDivisionError]. *)
Definition quot (a b : complex) : result complex :=
  let abs_breal := fabs (real b) in
  let abs_bimag := fabs (imag b) in
  if abs_bimag <=? abs_breal then
    if abs_breal =? 0 then Raise ZeroDivisionError
    else
      let ratio := imag b / real b in
      let denom := real b + imag b * ratio in
      Ok (Complex ((real a + imag a * ratio) / denom)
                  ((imag a - real a * ratio) / denom))
  else if abs_breal <=? abs_bimag then
    let ratio := real b / imag b in
    let denom := real b * ratio + imag b in
    Ok (Complex ((real a * ratio + imag a) / denom)
                ((imag a * ratio - real a) / denom))
  else Ok (Complex nan nan).

(** [cmath.isfinite] *)
Definition isfinite (w : complex) : bool :=
  PyFloat.isfinite (real w) && PyFloat.isfinite (imag w).

(** [==] and [!=] *)
Definition eq (a b : complex) : bool :=
  PyFloat.eq (real a) (real b) && PyFloat.eq (imag a) (imag b).

Definition ne (a b : complex) : bool := negb (eq a b).

(** [abs]: [_Py_c_abs], whose [ERANGE] becomes [OverflowError].  With a
    NaN component and no infinite one [_Py_c_abs] leaves [errno] as it
    finds it, and [complex_abs] reads that: the definition is of a call
    made with [errno] other than [ERANGE].  Every [abs] of the program
    that follows a call that set [errno] is such a call; its first one,
    [abs(x)] of line 65, is such a call for an [x] without NaN
    component, or in a process that no earlier overflow has left with
    [ERANGE]. *)
Definition abs {libm : Libm} (z : complex) : result float :=
  if PyFloat.isfinite (real z) && PyFloat.isfinite (imag z) then
    let r := hypot (real z) (imag z) in
    if PyFloat.isfinite r then Ok r else Raise OverflowError
  else if PyFloat.isinf (real z) then Ok (PrimFloat.abs (real z))
  else if PyFloat.isinf (imag z) then Ok (PrimFloat.abs (imag z))
  else Ok nan.

End PyComplex.

(** ** Warnings and diagnostics *)

(** The three [warnings.warn(..., RuntimeWarning)] calls, with the values
    their messages format. *)
Inductive advisory : Type :=
| EqualMagnitude
    (* "|x| == |y| -> log-exp fallback" *)
| BoundaryFallback (abs_z boundary_threshold : float)
    (* "|z| = {abs(z):.4f} > {boundary_threshold} -> log-exp" *)
| NoConvergence (effective_max : Z) (abs_z abs_term : float).
    (* "No convergence after {effective_max} terms (|z|=..., |term|=...)" *)

(** The [info] dictionary; a key that a branch leaves out is [None], and
    so is the value [None] of the key ["z"]. *)
Module Info.
Record t : Type := mk {
  terms_used : Z;
  used_fallback : bool;
  z : option complex;
  note : option string;
  last_term_abs : option float;
  converged : option bool;
  base : option complex
}.

(** [{"terms_used": 0, "used_fallback": fb, "z": z}] *)
Definition terminal (fb : bool) (z : option complex) : t :=
  mk 0 fb z None None None None.
End Info.

(** [DomainError] is the function's own
    [ValueError("Cannot reliably compute 0 raised to ...")]; the other
    exceptions of a call come out of the library. *)
Inductive error : Type :=
| DomainError
| Library (e : lib_error).

(** How a call of the function ends. *)
Inductive outcome (A : Type) : Type :=
| Value (a : A)
| Exception (e : error)
| NoFuel.
Arguments Value {A} a.
Arguments Exception {A} e.
Arguments NoFuel {A}.

(** The end of a call that is the end of a library call. *)
Definition lift {A : Type} (r : result A) : outcome A :=
  match r with
  | Ok a => Value a
  | Raise e => Exception (Library e)
  | OutOfFuel => NoFuel
  end.

(** A computation that may warn before it returns or raises. *)
Definition M (A : Type) : Type := (list advisory * outcome A)%type.

Definition ret {A : Type} (a : A) : M A := ([], Value a).
Definition call {A : Type} (r : result A) : M A := ([], lift r).
Definition warn (a : advisory) : M unit := ([a], Value tt).
Definition raise {A : Type} (e : error) : M A := ([], Exception e).

Definition bind {A B : Type} (m : M A) (k : A -> M B) : M B :=
  match snd m with
  | Value a => (fst m ++ fst (k a), snd (k a))
  | Exception e => (fst m, Exception e)
  | NoFuel => (fst m, NoFuel)
  end.

Declare Scope M_scope.
Delimit Scope M_scope with M.
Notation "x <- e ;; k" := (bind e (fun x => k))
  (at level 61, e at next level, right associativity) : M_scope.
Notation "e ;;; k" := (bind e (fun _ => k))
  (at level 61, right associativity) : M_scope.

(** What a call hands back: the value, and the [info] dictionary when
    [return_info] is set. *)
Definition returned : Type := (complex * option Info.t)%type.

Definition with_info (return_info : bool) (value : complex) (i : Info.t)
  : returned :=
  (value, if return_info then Some i else None).

(** ** The program *)

Section Program.
Context {libm : Libm}.

Import PyFloat.
Local Open Scope float_scope.

(** Defaults of the keyword parameters. *)
Definition default_tol : float := 1e-12.
Definition default_max_terms : Z := 100.
Definition default_boundary_threshold : float := 0.90.

(** The body of the [try] of lines 31-38: [Some] when the real odd root
    is returned, [None] when the denominator is even. *)
Definition real_odd_root (x alpha : complex) (return_info : bool)
  : result (option returned) :=
  (f <- Fraction.of_float (real alpha) ;;
   frac <- Fraction.limit_denominator f 1000 ;;
   if (Fraction.denominator frac mod 2 =? 1)%Z then
     abs_root <- float_pow (PrimFloat.abs (real x)) (real alpha) ;;
     Ok (Some (with_info return_info
                 (PyComplex.of_float (- abs_root))
                 (Info.mk 0 false (Some PyComplex.zero)
                    (Some "real odd root"%string) None None None)))
   else Ok None)%result.

(** [except (ValueError, ZeroDivisionError): pass] *)
Definition caught (e : lib_error) : bool :=
  match e with
  | ValueError | ZeroDivisionError => true
  | OverflowError => false
  end.

(** [(alpha - k + 1) * z / k] *)
Definition multiplier (alpha z : complex) (k : Z) : result complex :=
  (kc <- PyComplex.of_int k ;;
   c1 <- PyComplex.of_int 1 ;;
   PyComplex.quot
     (PyComplex.prod (PyComplex.sum (PyComplex.diff alpha kc) c1) z)
     kc)%result.

(** [effective_max], lines 94-96; [abs_z] is [abs(z)]. *)
Definition effective_max (max_terms : Z) (abs_z boundary_threshold : float)
  : Z :=
  if lt 0.75 abs_z && le abs_z boundary_threshold
  then Z.max max_terms (max_terms * 3)
  else max_terms.

(** The [while k <= effective_max] loop, lines 98-110.  The state is
    [(S, term, k)], here [(Sk, term, k)]; the result is the state the
    loop is left with, by [break] or by its condition. *)
Fixpoint series_loop (fuel : nat) (alpha z : complex) (tol : float)
    (effective_max : Z) (Sk term : complex) (k : Z)
  : result (complex * complex * Z) :=
  match fuel with
  | O => OutOfFuel
  | S fuel' =>
      if (k <=? effective_max)%Z then
        (m <- multiplier alpha z k ;;
         let term := PyComplex.prod term m in
         abs_term <- PyComplex.abs term ;;
         abs_S <- PyComplex.abs Sk ;;
         if lt abs_term (1e-16 * abs_S) || lt abs_term 1e-14
         then Ok (Sk, term, k)
         else
           let Sk := PyComplex.sum Sk term in
           abs_term <- PyComplex.abs term ;;
           abs_S <- PyComplex.abs Sk ;;
           if lt abs_term (tol * abs_S)
           then Ok (Sk, term, k)
           else series_loop fuel' alpha z tol effective_max
                  Sk term (k + 1))%result
      else Ok (Sk, term, k)
  end.

(** One unit of fuel per iteration and one for the test that ends the
    loop. *)
Definition series_fuel (effective_max : Z) : nat :=
  S (Z.to_nat effective_max).

(** [cmath.exp(alpha * cmath.log(w))] *)
Definition log_exp (alpha w : complex) : result complex :=
  (l <- cmath_log w ;; cmath_exp (PyComplex.prod alpha l))%result.

(** Lines 89-132: the series summation and the composition of the
    result. *)
Definition series_stage (alpha A z : complex) (tol : float)
    (max_terms : Z) (boundary_threshold : float) (return_info : bool)
  : M returned :=
  (abs_z <- call (PyComplex.abs z) ;;
   let effective_max := effective_max max_terms abs_z boundary_threshold in
   st <- call (series_loop (series_fuel effective_max) alpha z tol
                 effective_max PyComplex.one PyComplex.one 1) ;;
   let '(Sk, term, k) := st in
   (if (effective_max <=? k)%Z then
      abs_term <- call (PyComplex.abs term) ;;
      abs_S <- call (PyComplex.abs Sk) ;;
      if ge abs_term (tol * abs_S) then
        abs_z <- call (PyComplex.abs z) ;;
        abs_term <- call (PyComplex.abs term) ;;
        warn (NoConvergence effective_max abs_z abs_term)
      else ret tt
    else ret tt) ;;;
   A_power <- call (log_exp alpha A) ;;
   let result := PyComplex.prod A_power Sk in
   if return_info then
     abs_term <- call (PyComplex.abs term) ;;
     abs_term' <- call (PyComplex.abs term) ;;
     abs_S <- call (PyComplex.abs Sk) ;;
     ret (result,
          Some (Info.mk k false (Some z) None (Some abs_term)
                  (Some (lt abs_term' (tol * abs_S))) (Some A)))
   else ret (result, None))%M.

(** Lines 79-87, then the series stage. *)
Definition boundary_policy (x y alpha A z : complex) (tol : float)
    (max_terms : Z) (boundary_threshold : float) (return_info : bool)
  : M returned :=
  (abs_z <- call (PyComplex.abs z) ;;
   if gt abs_z boundary_threshold then
     abs_z <- call (PyComplex.abs z) ;;
     warn (BoundaryFallback abs_z boundary_threshold) ;;;
     result <- call (log_exp alpha (PyComplex.sum x y)) ;;
     ret (with_info return_info result (Info.terminal true (Some z)))
   else
     series_stage alpha A z tol max_terms boundary_threshold return_info)%M.

(** Lines 64-77, then the boundary policy. *)
Definition preconditioning (x y alpha : complex) (tol : float)
    (max_terms : Z) (boundary_threshold : float) (return_info : bool)
  : M returned :=
  (ax <- call (PyComplex.abs x) ;;
   ay <- call (PyComplex.abs y) ;;
   if lt ax ay then
     z <- call (PyComplex.quot x y) ;;
     boundary_policy x y alpha y z tol max_terms boundary_threshold
       return_info
   else if gt ax ay then
     z <- call (PyComplex.quot y x) ;;
     boundary_policy x y alpha x z tol max_terms boundary_threshold
       return_info
   else
     warn EqualMagnitude ;;;
     result <- call (log_exp alpha (PyComplex.sum x y)) ;;
     ret (with_info return_info result (Info.terminal true None)))%M.

(** [aqueeq_binomial(x, y, alpha, tol, max_terms, boundary_threshold,
    return_info)] *)
Definition aqueeq_binomial (x y alpha : complex) (tol : float)
    (max_terms : Z) (boundary_threshold : float) (return_info : bool)
  : M returned :=
  if PyComplex.eq x PyComplex.zero && PyComplex.ne y PyComplex.zero then
    (result <- call (complex_pow y alpha) ;;
     ret (with_info return_info result
            (Info.terminal false (Some PyComplex.zero))))%M
  else if PyComplex.eq y PyComplex.zero && PyComplex.ne x PyComplex.zero
  then
    let normal_power :=
      (result <- call (complex_pow x alpha) ;;
       ret (with_info return_info result
              (Info.terminal false (Some PyComplex.zero))))%M in
    if eq (imag x) 0 && eq (imag alpha) 0 && lt (real x) 0 then
      match real_odd_root x alpha return_info with
      | Ok (Some r) => ret r
      | Ok None => normal_power
      | Raise e => if caught e then normal_power else call (Raise e)
      | OutOfFuel => call OutOfFuel
      end
    else normal_power
  else if PyComplex.eq x (PyComplex.neg y)
          && eq (imag alpha) 0 && is_integer (real alpha) then
    ret (with_info return_info PyComplex.zero (Info.terminal false None))
  else if PyComplex.eq (PyComplex.sum x y) PyComplex.zero then
    if gt (real alpha) 0 && eq (imag alpha) 0 then
      ret (with_info return_info PyComplex.zero (Info.terminal true None))
    else raise DomainError
  else
    preconditioning x y alpha tol max_terms boundary_threshold return_info.

End Program.

(** ** A library to run the program on

    [hypot] is correctly rounded: the square root, rounded once, of the
    exact sum of the squares.  [exp], [log] and [**] answer the arguments
    at which the C standard fixes their value exactly ([exp(0) = 1],
    [log(1) = 0], [w ** 0 = 1], [w ** 1 = w]); the float power also
    answers a positive base and an integer exponent from 2 to 4096, with
    the exact power rounded once, or [OverflowError] when that is beyond
    the largest float.  They are left undefined (NaN) elsewhere: the
    examples below only meet those arguments. *)

Module Reference.

Definition exact_hypot (a b : spec_float) : spec_float :=
  match a, b with
  | S754_infinity _, _ | _, S754_infinity _ => S754_infinity false
  | S754_nan, _ | _, S754_nan => S754_nan
  | S754_zero _, _ => SFabs b
  | _, S754_zero _ => SFabs a
  | S754_finite _ ma ea, S754_finite _ mb eb =>
      let e := Z.min (2 * ea) (2 * eb) in
      let m := Z.pos (ma * ma) * 2 ^ (2 * ea - e)
               + Z.pos (mb * mb) * 2 ^ (2 * eb - e) in
      match m with
      | Z.pos p => SFsqrt prec emax (S754_finite false p e)
      | _ => S754_nan
      end
  end.

Definition hypot (a b : float) : float :=
  SF2Prim (exact_hypot (Prim2SF a) (Prim2SF b)).

(** [Some n] for a float that is the integer [n], [2 <= n <= 4096]. *)
Definition integer_exponent (b : float) : option Z :=
  match Prim2SF b with
  | S754_finite false m e =>
      let n := if 0 <=? e then Z.pos m * 2 ^ e else Z.pos m / 2 ^ (- e) in
      if PyFloat.is_integer b && (2 <=? n) && (n <=? 4096)
      then Some n else None
  | _ => None
  end.

(** [float_pow]: C [pow], whose [ERANGE] on overflow becomes
    [OverflowError]. *)
Definition float_pow (a b : float) : libcall float :=
  if PyFloat.eq b 0 then Returns 1%float
  else if PyFloat.eq b 1 then Returns a
  else
    match Prim2SF a, integer_exponent b with
    | S754_finite false m e, Some n =>
        let r :=
          SF2Prim (binary_normalize prec emax (Z.pos m ^ n) (e * n) false)
        in
        if PyFloat.isinf r then Raises OverflowError else Returns r
    | _, _ => Returns nan
    end.

Definition complex_pow (a b : complex) : libcall complex :=
  if PyComplex.eq b PyComplex.zero then Returns PyComplex.one
  else if PyComplex.eq b PyComplex.one then Returns a
  else Returns (Complex nan nan).

Definition cmath_exp (w : complex) : libcall complex :=
  if PyComplex.eq w PyComplex.zero then Returns (Complex 1 (imag w))
  else Returns (Complex nan nan).

Definition cmath_log (w : complex) : libcall complex :=
  if PyComplex.eq w PyComplex.one then Returns (Complex 0 (imag w))
  else Returns (Complex nan nan).

Definition libm : Libm :=
  Build_Libm hypot float_pow complex_pow cmath_exp cmath_log.

End Reference.


(** ** Vocabulary of the specification *)

(** [alpha] is real: [alpha.imag == 0]. *)
Definition is_real (alpha : complex) : bool := PyFloat.eq (imag alpha) 0.

(** The call returns the value [v], with whatever diagnostics. *)
Definition returns_value (out : M returned) (v : complex) : Prop :=
  exists i, snd out = Value (v, i).

(** The call does not end for want of fuel. *)
Definition terminates {A : Type} (m : M A) : Prop := snd m <> NoFuel.

(** The call does not raise the function's own error. *)
Definition library_only {A : Type} (m : M A) : Prop :=
  snd m <> Exception DomainError.

(** The conditions of the edge-case resolver, in the order of the code:
    cases 1 to 4 of the specification. *)
Definition zero_x (x y : complex) : bool :=
  PyComplex.eq x PyComplex.zero && PyComplex.ne y PyComplex.zero.

Definition zero_y (x y : complex) : bool :=
  PyComplex.eq y PyComplex.zero && PyComplex.ne x PyComplex.zero.

Definition cancelling_integer (x y alpha : complex) : bool :=
  PyComplex.eq x (PyComplex.neg y)
  && PyFloat.eq (imag alpha) 0 && PyFloat.is_integer (real alpha).

Definition zero_sum (x y : complex) : bool :=
  PyComplex.eq (PyComplex.sum x y) PyComplex.zero.

Definition edge_case (x y alpha : complex) : bool :=
  zero_x x y || zero_y x y || cancelling_integer x y alpha || zero_sum x y.

(** [A] and [z] are what the preconditioner computes from operands of
    different magnitude: [ax] and [ay] are [abs(x)] and [abs(y)]. *)
Definition preconditioned {libm : Libm} (x y A z : complex) : Prop :=
  exists ax ay,
    PyComplex.abs x = Ok ax /\ PyComplex.abs y = Ok ay /\
    ((PyFloat.lt ax ay = true /\ A = y /\ PyComplex.quot x y = Ok z)
     \/ (PyFloat.lt ax ay = false /\ PyFloat.gt ax ay = true
         /\ A = x /\ PyComplex.quot y x = Ok z)).


(** C99, F.10.4.3: [hypot(v, +-0)] is [fabs(v)]. *)
Definition hypot_axis {libm : Libm} : Prop :=
  forall v w : float, PyFloat.eq w 0 = true -> hypot v w = PrimFloat.abs v.

(** [math.isnan] *)
Definition isnan (f : float) : bool :=
  match Prim2SF f with
  | S754_nan => true
  | _ => false
  end.

(** *** The series loop, in the words of the specification

    The state of the loop is [(S, term, k)].  One iteration first updates
    the term by the recurrence; it stops without adding the term when the
    term is under the absolute floor, and otherwise adds it and stops
    when the term is under the relative tolerance. *)

Section SeriesSpec.
Context {libm : Libm}.
Variables (alpha z : complex) (tol : float).

Local Open Scope float_scope.

(** [term_k = term_{k-1} * (alpha - k + 1) * z / k] *)
Definition recurrence (term : complex) (k : Z) : result complex :=
  (kc <- PyComplex.of_int k ;;
   c1 <- PyComplex.of_int 1 ;;
   q <- PyComplex.quot
          (PyComplex.prod (PyComplex.sum (PyComplex.diff alpha kc) c1) z)
          kc ;;
   Ok (PyComplex.prod term q))%result.

(** [|term| < 1e-16 * |S|] or [|term| < 1e-14] *)
Definition under_floor (abs_term abs_S : float) : bool :=
  PyFloat.lt abs_term (1e-16 * abs_S) || PyFloat.lt abs_term 1e-14.

(** [|term| < tol * |S|] *)
Definition under_tolerance (abs_term abs_S : float) : bool :=
  PyFloat.lt abs_term (tol * abs_S).

Inductive iteration_end : Type :=
| Stop (Sk term : complex)
| Continue (Sk term : complex).

Inductive iteration (Sk term : complex) (k : Z) : iteration_end -> Prop :=
| floor_stop (term' : complex) (abs_term abs_S : float) :
    recurrence term k = Ok term' ->
    PyComplex.abs term' = Ok abs_term ->
    PyComplex.abs Sk = Ok abs_S ->
    under_floor abs_term abs_S = true ->
    iteration Sk term k (Stop Sk term')
| tolerance_stop (term' : complex) (abs_term abs_S abs_S' : float) :
    recurrence term k = Ok term' ->
    PyComplex.abs term' = Ok abs_term ->
    PyComplex.abs Sk = Ok abs_S ->
    under_floor abs_term abs_S = false ->
    PyComplex.abs (PyComplex.sum Sk term') = Ok abs_S' ->
    under_tolerance abs_term abs_S' = true ->
    iteration Sk term k (Stop (PyComplex.sum Sk term') term')
| go_on (term' : complex) (abs_term abs_S abs_S' : float) :
    recurrence term k = Ok term' ->
    PyComplex.abs term' = Ok abs_term ->
    PyComplex.abs Sk = Ok abs_S ->
    under_floor abs_term abs_S = false ->
    PyComplex.abs (PyComplex.sum Sk term') = Ok abs_S' ->
    under_tolerance abs_term abs_S' = false ->
    iteration Sk term k (Continue (PyComplex.sum Sk term') term').

(** The loop from a state to the state it is left with: iterations
    [k = 1, 2, ...] up to [effective_max], unless one stops. *)
Inductive summation (effective_max : Z)
  : complex * complex * Z -> complex * complex * Z -> Prop :=
| summation_exhausted (Sk term : complex) (k : Z) :
    (effective_max < k)%Z ->
    summation effective_max (Sk, term, k) (Sk, term, k)
| summation_stop (Sk term Sk' term' : complex) (k : Z) :
    (k <= effective_max)%Z ->
    iteration Sk term k (Stop Sk' term') ->
    summation effective_max (Sk, term, k) (Sk', term', k)
| summation_continue (Sk term Sk' term' : complex) (k : Z)
    (final : complex * complex * Z) :
    (k <= effective_max)%Z ->
    iteration Sk term k (Continue Sk' term') ->
    summation effective_max (Sk', term', (k + 1)%Z) final ->
    summation effective_max (Sk, term, k) final.

End SeriesSpec.

(** ** Vocabulary of the proofs *)

(** A record of the rounding of [SpecFloat] that has lost no bit: its
    round and sticky bits are clear. *)
Definition no_bits_lost (mrs : shr_record) : Prop :=
  shr_r mrs = false /\ shr_s mrs = false.

(** A state [(S, term, k)] of the series loop whose magnitudes [abs(term)]
    and [abs(S)] are defined. *)
Definition has_magnitudes {libm : Libm} (st : complex * complex * Z)
  : Prop :=
  exists abs_term abs_S,
    PyComplex.abs (snd (fst st)) = Ok abs_term
    /\ PyComplex.abs (fst (fst st)) = Ok abs_S.

(** The end of a call from the value and the diagnostics it computed: the
    diagnostics are handed over when [return_info] is set. *)
Definition deliver (return_info : bool) (r : outcome (complex * Info.t))
  : outcome returned :=
  match r with
  | Value (v, i) => Value (with_info return_info v i)
  | Exception e => Exception e
  | NoFuel => NoFuel
  end.

(** *** The forms a call takes

    The warnings of a call and its end are of one of five forms: an
    exception before any warning; the value of an edge case; the log-exp
    fallback after the equal-magnitude warning, or after the boundary
    warning; the series, with the non-convergence warning or without. *)

Section Shapes.
Context {libm : Libm}.
Variables (x y alpha : complex) (tol : float) (max_terms : Z)
          (boundary_threshold : float).

Inductive shape : list advisory -> outcome (complex * Info.t) -> Prop :=
| shape_raise (e : error) : shape [] (Exception e)
| shape_edge (v : complex) (fb : bool) (z : option complex)
    (note : option string) :
    shape [] (Value (v, Info.mk 0 fb z note None None None))
| shape_equal :
    shape [EqualMagnitude]
      (lift (result <- log_exp alpha (PyComplex.sum x y) ;;
             Ok (result, Info.terminal true None))%result)
| shape_boundary (z : complex) (abs_z : float) :
    PyComplex.abs z = Ok abs_z ->
    PyFloat.gt abs_z boundary_threshold = true ->
    shape [BoundaryFallback abs_z boundary_threshold]
      (lift (result <- log_exp alpha (PyComplex.sum x y) ;;
             Ok (result, Info.terminal true (Some z)))%result)
| shape_series (A z : complex) (abs_z : float) (Sk term : complex) (k : Z)
    (abs_term abs_S : float) :
    let budget := effective_max max_terms abs_z boundary_threshold in
    A = x \/ A = y ->
    PyComplex.abs z = Ok abs_z ->
    PyFloat.gt abs_z boundary_threshold = false ->
    series_loop (series_fuel budget) alpha z tol budget
      PyComplex.one PyComplex.one 1 = Ok (Sk, term, k) ->
    PyComplex.abs term = Ok abs_term ->
    PyComplex.abs Sk = Ok abs_S ->
    1 <= k <= Z.max 1 (budget + 1) ->
    shape
      (if (budget <=? k) && PyFloat.ge abs_term (tol * abs_S)%float
       then [NoConvergence budget abs_z abs_term] else [])
      (lift (A_power <- log_exp alpha A ;;
             Ok (PyComplex.prod A_power Sk,
                 Info.mk k false (Some z) None (Some abs_term)
                   (Some (PyFloat.lt abs_term (tol * abs_S)%float))
                   (Some A)))%result).

(** [run], a call as a function of [return_info], takes one of the
    forms. *)
Definition takes_shape (run : bool -> M returned) : Prop :=
  exists ws r, shape ws r /\ forall ri, run ri = (ws, deliver ri r).

End Shapes.

(** * Properties *)

(** ** Facts about binary64 values

    Each is read off the specification of the primitive operation
    ([eqb_spec], [opp_spec], [add_spec], ...) by cases on the operands. *)

Module FloatFacts.

Local Open Scope float_scope.

Lemma Prim2SF_zero : Prim2SF 0 = S754_zero false.
Proof. reflexivity. Qed.

Lemma SFeqb_refl_finite (s : spec_float) :
  match s with S754_zero _ | S754_finite _ _ _ => True | _ => False end ->
  SFeqb s s = true.
Proof.
  destruct s as [b | b | | b m e]; simpl; try easy; intros _.
  unfold SFeqb, SFcompare.
  rewrite Z.compare_refl, Pos.compare_cont_refl.
  now destruct b.
Qed.

Lemma SFeqb_finite_inv (s1 s2 : bool) (m1 m2 : positive) (e1 e2 : Z) :
  SFeqb (S754_finite s1 m1 e1) (S754_finite s2 m2 e2) = true ->
  s1 = s2 /\ e1 = e2 /\ m1 = m2.
Proof.
  unfold SFeqb, SFcompare.
  change (Pos.compare_cont Eq m1 m2) with (Pos.compare m1 m2).
  destruct s1, s2; try discriminate;
    destruct (Z.compare_spec e1 e2); try discriminate;
    destruct (Pos.compare_spec m1 m2); try discriminate; now subst.
Qed.

(** A finite float equals itself. *)
Lemma eq_refl_finite (a : float) :
  PyFloat.isfinite a = true -> PyFloat.eq a a = true.
Proof.
  unfold PyFloat.isfinite, PyFloat.eq. rewrite FloatAxioms.eqb_spec.
  intros H. apply SFeqb_refl_finite.
  destruct (Prim2SF a); easy.
Qed.

(** Negation is an involution, on every float. *)
Lemma opp_involutive (a : float) : - - a = a.
Proof.
  apply Prim2SF_inj. rewrite !FloatAxioms.opp_spec.
  destruct (Prim2SF a) as [s | s | | s m e]; simpl;
    now rewrite ?negb_involutive.
Qed.

(** [-a == 0] exactly when [a == 0]. *)
Lemma eq_zero_opp (a : float) : PyFloat.eq (- a) 0 = PyFloat.eq a 0.
Proof.
  unfold PyFloat.eq.
  rewrite !FloatAxioms.eqb_spec, FloatAxioms.opp_spec, Prim2SF_zero.
  destruct (Prim2SF a) as [s | s | | s m e]; simpl; try reflexivity;
    now destruct s.
Qed.

Lemma SFadd_opp_finite (s : bool) (m : positive) (e : Z) :
  SF64add (S754_finite s m e) (S754_finite (negb s) m e) = S754_zero false.
Proof.
  unfold SF64add, SFadd.
  rewrite Z.min_id. unfold shl_align. rewrite Z.sub_diag. simpl fst.
  destruct s; simpl; now rewrite ?Z.pos_sub_diag.
Qed.

(** Finite [a] and [b] with [a == -b] add up to a zero. *)
Lemma add_eq_opp (a b : float) :
  PyFloat.isfinite a = true -> PyFloat.isfinite b = true ->
  PyFloat.eq a (- b) = true -> PyFloat.eq (a + b) 0 = true.
Proof.
  unfold PyFloat.isfinite, PyFloat.eq.
  rewrite !FloatAxioms.eqb_spec, FloatAxioms.opp_spec, FloatAxioms.add_spec,
    Prim2SF_zero.
  destruct (Prim2SF a) as [sa | sa | | sa ma ea]; try discriminate;
    destruct (Prim2SF b) as [sb | sb | | sb mb eb]; try discriminate;
    intros _ _.
  - intros _. now destruct sa, sb.
  - simpl. now destruct sb.
  - simpl. now destruct sa.
  - simpl SFopp. intros H. apply SFeqb_finite_inv in H.
    destruct H as (-> & -> & ->).
    pose proof (SFadd_opp_finite (negb sb) mb eb) as E.
    rewrite negb_involutive in E. now rewrite E.
Qed.

(** A finite [a] has [a + (-a) == 0]. *)
Lemma add_opp_self (a : float) :
  PyFloat.isfinite a = true -> PyFloat.eq (a + - a) 0 = true.
Proof.
  intros Ha. apply add_eq_opp; trivial.
  - unfold PyFloat.isfinite in *. rewrite FloatAxioms.opp_spec.
    destruct (Prim2SF a); easy.
  - rewrite opp_involutive. now apply eq_refl_finite.
Qed.

End FloatFacts.

Module ComplexFacts.

Lemma neg_involutive (w : complex) : PyComplex.neg (PyComplex.neg w) = w.
Proof.
  destruct w as [re im]. unfold PyComplex.neg; simpl.
  now rewrite !FloatFacts.opp_involutive.
Qed.

Lemma eq_zero_neg (w : complex) :
  PyComplex.eq (PyComplex.neg w) PyComplex.zero
  = PyComplex.eq w PyComplex.zero.
Proof.
  unfold PyComplex.eq, PyComplex.neg, PyComplex.zero; simpl.
  now rewrite !FloatFacts.eq_zero_opp.
Qed.

Lemma complex_eq_refl_finite (w : complex) :
  PyComplex.isfinite w = true -> PyComplex.eq w w = true.
Proof.
  unfold PyComplex.isfinite, PyComplex.eq. intros [Hr Hi]%andb_prop.
  now rewrite !FloatFacts.eq_refl_finite.
Qed.

(** Finite operands with [x == -y] have [x + y == 0]. *)
Lemma sum_eq_neg (x y : complex) :
  PyComplex.isfinite x = true -> PyComplex.isfinite y = true ->
  PyComplex.eq x (PyComplex.neg y) = true ->
  PyComplex.eq (PyComplex.sum x y) PyComplex.zero = true.
Proof.
  unfold PyComplex.isfinite, PyComplex.eq, PyComplex.neg, PyComplex.sum; simpl.
  intros [Hxr Hxi]%andb_prop [Hyr Hyi]%andb_prop [Hr Hi]%andb_prop.
  now rewrite !FloatFacts.add_eq_opp.
Qed.

Lemma sum_neg_self (x : complex) :
  PyComplex.isfinite x = true ->
  PyComplex.eq (PyComplex.sum x (PyComplex.neg x)) PyComplex.zero = true.
Proof.
  unfold PyComplex.isfinite, PyComplex.eq, PyComplex.neg, PyComplex.sum; simpl.
  intros [Hr Hi]%andb_prop.
  now rewrite !FloatFacts.add_opp_self.
Qed.

End ComplexFacts.


(** ** Order facts about binary64 values *)

Module FloatOrder.

Local Open Scope float_scope.

Lemma SFcompare_swap (a b : spec_float) :
  SFcompare b a = option_map CompOpp (SFcompare a b).
Proof.
  destruct a as [sa | sa | | sa ma ea], b as [sb | sb | | sb mb eb];
    simpl; try reflexivity;
    try (destruct sa; reflexivity); try (destruct sb; reflexivity);
    try (destruct sa, sb; reflexivity).
  change (Pos.compare_cont Eq mb ma) with (Pos.compare mb ma).
  change (Pos.compare_cont Eq ma mb) with (Pos.compare ma mb).
  rewrite (Z.compare_antisym ea eb), (Pos.compare_antisym ma mb).
  destruct sa, sb; simpl; try reflexivity;
    destruct (ea ?= eb)%Z; simpl; try reflexivity;
    now destruct (ma ?= mb)%positive.
Qed.


(** Floats that are not NaN are equal or strictly ordered. *)
Lemma trichotomy (a b : float) :
  PyFloat.isfinite a = true -> PyFloat.isfinite b = true ->
  PyFloat.eq a b = false ->
  PyFloat.lt a b = true \/ PyFloat.lt b a = true.
Proof.
  unfold PyFloat.isfinite, PyFloat.eq, PyFloat.lt.
  rewrite FloatAxioms.eqb_spec, !FloatAxioms.ltb_spec.
  unfold SFeqb, SFltb. rewrite (SFcompare_swap (Prim2SF a) (Prim2SF b)).
  destruct (Prim2SF a) as [sa | sa | | sa ma ea]; try discriminate;
    destruct (Prim2SF b) as [sb | sb | | sb mb eb]; try discriminate;
    intros _ _;
    match goal with
    | |- context [SFcompare ?u ?v] =>
        destruct (SFcompare u v) as [[ | | ] | ] eqn:E
    end; simpl; try discriminate; auto;
    simpl in E; try discriminate;
    destruct sa; discriminate.
Qed.

(** A float below zero is not zero. *)
Lemma lt_zero_ne (a : float) :
  PyFloat.lt a 0 = true -> PyFloat.eq a 0 = false.
Proof.
  unfold PyFloat.eq, PyFloat.lt.
  rewrite FloatAxioms.eqb_spec, FloatAxioms.ltb_spec.
  unfold SFeqb, SFltb.
  destruct (SFcompare (Prim2SF a) (Prim2SF 0)) as [[ | | ] | ];
    simpl; try discriminate; auto.
Qed.

(** [fabs a <= q] with [q == 0] leaves [a == 0]. *)
Lemma fabs_le_zero (a q : float) :
  PyFloat.le (PyComplex.fabs a) q = true -> PyFloat.eq q 0 = true ->
  PyFloat.eq a 0 = true.
Proof.
  unfold PyFloat.le, PyFloat.eq, PyComplex.fabs.
  rewrite FloatAxioms.ltb_spec.
  destruct (SFltb (Prim2SF a) (Prim2SF 0)) eqn:L;
    rewrite FloatAxioms.leb_spec, !FloatAxioms.eqb_spec,
      ?FloatAxioms.opp_spec;
    revert L; rewrite FloatFacts.Prim2SF_zero;
    destruct (Prim2SF a) as [sa | sa | | sa ma ea],
             (Prim2SF q) as [sq | sq | | sq mq eq'];
    simpl; try discriminate; try reflexivity;
    try (destruct sa; simpl; discriminate);
    try (destruct sq; simpl; discriminate);
    try (destruct sa, sq; simpl; discriminate).
Qed.

(** [fabs a == 0] exactly when [a == 0]. *)
Lemma fabs_eq_zero (a : float) :
  PyFloat.eq (PyComplex.fabs a) 0 = PyFloat.eq a 0.
Proof.
  unfold PyComplex.fabs. destruct (a <? 0); trivial.
  apply FloatFacts.eq_zero_opp.
Qed.

End FloatOrder.

(** ** Rounding of a quotient

    The division of the primitive floats is [SFdiv]: the integer quotient
    of the mantissas, shifted to 53 digits and rounded to nearest even. *)

Module Rounding.

Lemma digits2_size (p : positive) : digits2_pos p = Pos.size p.
Proof. induction p; simpl; congruence. Qed.

(** [0 <= m < 2 ^ k] has at most [k] digits. *)
Lemma Zdigits2_le (m k : Z) : 0 <= m < 2 ^ k -> 0 <= k -> Zdigits2 m <= k.
Proof.
  intros [Hm Hk] Hk0. destruct m as [ | p | p]; simpl; try lia.
  rewrite digits2_size.
  pose proof (Pos.size_le p) as Hs.
  assert (H : (2 ^ Z.pos (Pos.size p) <= 2 * Z.pos p)).
  { change (2 * Z.pos p) with (Z.pos p~0).
    rewrite <- Pos2Z.inj_pow. now apply Pos2Z.pos_le_pos. }
  destruct (Z.le_gt_cases (Z.pos (Pos.size p)) k) as [ | Hgt]; trivial.
  exfalso.
  assert (2 ^ (k + 1) <= 2 ^ Z.pos (Pos.size p))
    by (apply Z.pow_le_mono_r; lia).
  rewrite Z.pow_add_r, Z.pow_1_r in H0 by lia. lia.
Qed.

Lemma Zdigits2_nonneg (m : Z) : 0 <= Zdigits2 m.
Proof. destruct m; simpl; lia. Qed.

Lemma shr_1_m (mrs : shr_record) :
  0 <= shr_m mrs -> shr_m (shr_1 mrs) = shr_m mrs / 2.
Proof.
  destruct mrs as [m r s]; simpl. intros Hm.
  destruct m as [ | [p | p | ] | p]; simpl; try lia; try reflexivity.
  - rewrite (Pos2Z.inj_xI p).
    apply Z.div_unique with (r := 1); lia.
  - rewrite (Pos2Z.inj_xO p).
    apply Z.div_unique with (r := 0); lia.
Qed.

Lemma shr_1_nonneg (mrs : shr_record) :
  0 <= shr_m mrs -> 0 <= shr_m (shr_1 mrs).
Proof.
  intros H. rewrite shr_1_m by trivial. apply Z.div_pos; lia.
Qed.

Lemma iter_shr_m (p : positive) :
  forall mrs, 0 <= shr_m mrs ->
    shr_m (iter_pos shr_1 p mrs) = shr_m mrs / 2 ^ Z.pos p.
Proof.
  induction p as [p IH | p IH | ]; intros mrs Hm; simpl iter_pos.
  - assert (H1 : 0 <= shr_m (shr_1 mrs)) by now apply shr_1_nonneg.
    assert (H2 : 0 <= shr_m (iter_pos shr_1 p (shr_1 mrs))).
    { rewrite IH by trivial. apply Z.div_pos; lia. }
    rewrite IH, IH, shr_1_m by trivial.
    rewrite !Z.div_div by lia.
    f_equal. rewrite (Pos2Z.inj_xI p).
    replace (2 * Z.pos p + 1) with (1 + Z.pos p + Z.pos p) by lia.
    rewrite !(Z.pow_add_r 2) by lia. rewrite Z.pow_1_r. ring.
  - assert (H2 : 0 <= shr_m (iter_pos shr_1 p mrs)).
    { rewrite IH by trivial. apply Z.div_pos; lia. }
    rewrite IH, IH by trivial.
    rewrite !Z.div_div by lia.
    f_equal. rewrite (Pos2Z.inj_xO p).
    replace (2 * Z.pos p) with (Z.pos p + Z.pos p) by lia.
    rewrite !(Z.pow_add_r 2) by lia. ring.
  - now apply shr_1_m.
Qed.

Lemma shr_1_exact (mrs : shr_record) :
  0 <= shr_m mrs -> no_bits_lost mrs -> shr_m mrs mod 2 = 0 ->
  no_bits_lost (shr_1 mrs).
Proof.
  destruct mrs as [m r s]; unfold no_bits_lost; simpl. intros Hm [-> ->] Hmod.
  destruct m as [ | [p | p | ] | p]; simpl; auto; try lia.
  - rewrite (Pos2Z.inj_xI p) in Hmod.
    rewrite Z.add_comm, Z.mul_comm, Z.mod_add in Hmod by lia.
    discriminate.
  - discriminate.
Qed.

Lemma iter_shr_exact (p : positive) :
  forall mrs, 0 <= shr_m mrs -> no_bits_lost mrs ->
    shr_m mrs mod 2 ^ Z.pos p = 0 ->
    no_bits_lost (iter_pos shr_1 p mrs).
Proof.
  induction p as [p IH | p IH | ]; intros mrs Hm He Hmod; simpl iter_pos.
  - rewrite (Pos2Z.inj_xI p) in Hmod.
    replace (2 * Z.pos p + 1) with (1 + Z.pos p + Z.pos p) in Hmod by lia.
    rewrite !Z.pow_add_r, Z.pow_1_r in Hmod by lia.
    apply Z.mod_divide in Hmod; [ | lia]. destruct Hmod as [c Hc].
    assert (H1 : 0 <= shr_m (shr_1 mrs)) by now apply shr_1_nonneg.
    assert (E1 : shr_m (shr_1 mrs) = c * 2 ^ Z.pos p * 2 ^ Z.pos p).
    { rewrite shr_1_m, Hc by trivial.
      replace (c * (2 * 2 ^ Z.pos p * 2 ^ Z.pos p))
        with (c * 2 ^ Z.pos p * 2 ^ Z.pos p * 2) by ring.
      now rewrite Z.div_mul. }
    assert (X1 : no_bits_lost (shr_1 mrs)).
    { apply shr_1_exact; trivial. rewrite Hc.
      replace (c * (2 * 2 ^ Z.pos p * 2 ^ Z.pos p))
        with (c * 2 ^ Z.pos p * 2 ^ Z.pos p * 2) by ring.
      now rewrite Z.mod_mul. }
    assert (H2 : 0 <= shr_m (iter_pos shr_1 p (shr_1 mrs))).
    { rewrite iter_shr_m by trivial. apply Z.div_pos; lia. }
    apply IH; trivial.
    + apply IH; trivial. rewrite E1. now rewrite Z.mod_mul by lia.
    + rewrite iter_shr_m, E1, Z.div_mul by (trivial; lia).
      now rewrite Z.mod_mul by lia.
  - rewrite (Pos2Z.inj_xO p) in Hmod.
    replace (2 * Z.pos p) with (Z.pos p + Z.pos p) in Hmod by lia.
    rewrite !Z.pow_add_r in Hmod by lia.
    apply Z.mod_divide in Hmod; [ | lia]. destruct Hmod as [c Hc].
    assert (H2 : 0 <= shr_m (iter_pos shr_1 p mrs)).
    { rewrite iter_shr_m by trivial. apply Z.div_pos; lia. }
    apply IH; trivial.
    + apply IH; trivial. rewrite Hc.
      replace (c * (2 ^ Z.pos p * 2 ^ Z.pos p))
        with (c * 2 ^ Z.pos p * 2 ^ Z.pos p) by ring.
      now rewrite Z.mod_mul by lia.
    + rewrite iter_shr_m, Hc by trivial.
      replace (c * (2 ^ Z.pos p * 2 ^ Z.pos p))
        with (c * 2 ^ Z.pos p * 2 ^ Z.pos p) by ring.
      rewrite Z.div_mul by lia. now rewrite Z.mod_mul by lia.
  - apply shr_1_exact; trivial.
Qed.

Lemma shr_spec (mrs : shr_record) (e n : Z) :
  0 <= shr_m mrs ->
  shr_m (fst (shr mrs e n)) = shr_m mrs / 2 ^ Z.max n 0
  /\ snd (shr mrs e n) = e + Z.max n 0.
Proof.
  intros Hm. destruct n as [ | p | p]; simpl.
  - now rewrite Z.div_1_r, Z.add_0_r.
  - split; [now apply iter_shr_m | reflexivity].
  - now rewrite Z.div_1_r, Z.add_0_r.
Qed.

Lemma shr_exact (mrs : shr_record) (e n : Z) :
  0 <= shr_m mrs -> no_bits_lost mrs -> shr_m mrs mod 2 ^ Z.max n 0 = 0 ->
  no_bits_lost (fst (shr mrs e n)).
Proof.
  intros Hm He Hmod. destruct n as [ | p | p]; simpl; trivial.
  now apply iter_shr_exact.
Qed.

Lemma round_nearest_even_bounds (m : Z) (l : location) :
  m <= round_nearest_even m l <= m + 1.
Proof.
  destruct l as [ | [ | | ]]; simpl; try lia.
  destruct (Z.even m); lia.
Qed.

Lemma loc_of_exact (mrs : shr_record) :
  no_bits_lost mrs -> loc_of_shr_record mrs = loc_Exact.
Proof.
  destruct mrs as [m r s]. unfold no_bits_lost; simpl. now intros [-> ->].
Qed.

Lemma fexp_eq (x : Z) : fexp prec emax x = Z.max (x - 53) (-1074).
Proof. reflexivity. Qed.

(** Rounding a quotient below [1 - 2^-53] (or equal to it, and exact)
    stays below 1: the result has an exponent of [-53] at most. *)
Lemma round_below_one (s : bool) (q N : Z) (l : location) :
  53 <= N -> 0 <= q ->
  (q < 2 ^ N - 2 ^ (N - 53)
   \/ (q = 2 ^ N - 2 ^ (N - 53) /\ l = loc_Exact)) ->
  match binary_round_aux prec emax s q (- N) l with
  | S754_zero _ => True
  | S754_finite _ _ e => e <= -53
  | _ => False
  end.
Proof.
  intros HN Hq Hbound.
  assert (HqN : q < 2 ^ N).
  { assert (0 < 2 ^ (N - 53)) by (apply Z.pow_pos_nonneg; lia). lia. }
  pose proof (Zdigits2_le q N (conj Hq HqN) ltac:(lia)) as Hdq.
  pose proof (Zdigits2_nonneg q) as Hdq0.
  unfold binary_round_aux, shr_fexp.
  set (n1 := fexp prec emax (Zdigits2 q + - N) - - N).
  set (rec0 := shr_record_of_loc q l).
  assert (Hrec0 : shr_m rec0 = q)
    by (unfold rec0; now destruct l as [ | [ | | ]]).
  destruct (shr_spec rec0 (- N) n1 ltac:(lia)) as [Hm1 He1].
  destruct (shr rec0 (- N) n1) as [mrs1 e1] eqn:Hshr1. simpl in Hm1, He1.
  set (k1 := Z.max n1 0) in *.
  assert (Hk1 : 0 <= k1 <= N - 53).
  { unfold k1, n1. rewrite fexp_eq. lia. }
  set (j := N - 53 - k1).
  assert (Hj : 0 <= j) by (unfold j; lia).
  assert (E53 : 2 ^ (N - 53) = 2 ^ j * 2 ^ k1).
  { rewrite <- Z.pow_add_r by lia. f_equal. unfold j. lia. }
  assert (EN : 2 ^ N = 2 ^ (N - k1) * 2 ^ k1).
  { rewrite <- Z.pow_add_r by lia. f_equal. lia. }
  assert (ENk : 2 ^ (N - k1) = 2 ^ 53 * 2 ^ j).
  { rewrite <- Z.pow_add_r by lia. f_equal. unfold j. lia. }
  assert (Hpk : 0 < 2 ^ k1) by (apply Z.pow_pos_nonneg; lia).
  assert (Hpj : 0 < 2 ^ j) by (apply Z.pow_pos_nonneg; lia).
  rewrite Hrec0 in Hm1.
  set (m1 := round_nearest_even (shr_m mrs1) (loc_of_shr_record mrs1)).
  assert (Hm1b : 0 <= m1 < 2 ^ (N - k1)).
  { pose proof (round_nearest_even_bounds (shr_m mrs1)
                  (loc_of_shr_record mrs1)) as Hr.
    fold m1 in Hr.
    assert (H0 : 0 <= shr_m mrs1) by (rewrite Hm1; apply Z.div_pos; lia).
    split; [lia | ].
    destruct Hbound as [Hlt | [Heq Hl]].
    - assert (shr_m mrs1 < 2 ^ (N - k1) - 2 ^ j).
      { rewrite Hm1. apply Z.div_lt_upper_bound; [lia | ].
        rewrite EN, E53 in Hlt. nia. }
      lia.
    - assert (Hex : no_bits_lost mrs1).
      { replace mrs1 with (fst (shr rec0 (- N) n1)) by now rewrite Hshr1.
        apply shr_exact; [lia | | ].
        - unfold rec0. rewrite Hl. now split.
        - fold k1. rewrite Hrec0, Heq, EN, E53.
          replace (2 ^ (N - k1) * 2 ^ k1 - 2 ^ j * 2 ^ k1)
            with ((2 ^ (N - k1) - 2 ^ j) * 2 ^ k1) by ring.
          apply Z.mod_mul. lia. }
      unfold m1. rewrite (loc_of_exact mrs1 Hex). simpl.
      rewrite Hm1, Heq, EN, E53.
      replace (2 ^ (N - k1) * 2 ^ k1 - 2 ^ j * 2 ^ k1)
        with ((2 ^ (N - k1) - 2 ^ j) * 2 ^ k1) by ring.
      rewrite Z.div_mul by lia. lia. }
  pose proof (Zdigits2_le m1 (N - k1) Hm1b ltac:(lia)) as Hd1.
  pose proof (Zdigits2_nonneg m1) as Hd10.
  set (n2 := fexp prec emax (Zdigits2 m1 + e1) - e1).
  set (rec1 := shr_record_of_loc m1 loc_Exact).
  assert (Hrec1 : shr_m rec1 = m1) by reflexivity.
  destruct (shr_spec rec1 e1 n2 ltac:(rewrite Hrec1; lia)) as [Hm2 He2].
  destruct (shr rec1 e1 n2) as [mrs2 e2] eqn:Hshr2. simpl in Hm2, He2.
  assert (He2b : e2 <= -53).
  { rewrite He2. unfold n2. rewrite fexp_eq. lia. }
  assert (Hm2b : 0 <= shr_m mrs2).
  { rewrite Hm2, ?Hrec1. apply Z.div_pos; [lia | ].
    apply Z.pow_pos_nonneg; lia. }
  destruct (shr_m mrs2) as [ | m | m]; trivial; [ | lia].
  replace (e2 <=? emax - prec) with true; trivial.
  symmetry. apply Z.leb_le. unfold emax, prec. lia.
Qed.

Lemma digits_bounds (m : positive) :
  2 ^ (Z.pos (digits2_pos m) - 1) <= Z.pos m < 2 ^ Z.pos (digits2_pos m).
Proof.
  rewrite digits2_size. split.
  - pose proof (Pos.size_le m) as Hs.
    assert (H : 2 ^ Z.pos (Pos.size m) <= 2 * Z.pos m).
    { change (2 * Z.pos m) with (Z.pos m~0).
      rewrite <- Pos2Z.inj_pow. now apply Pos2Z.pos_le_pos. }
    replace (Z.pos (Pos.size m)) with (1 + (Z.pos (Pos.size m) - 1)) in H
      by lia.
    rewrite Z.pow_add_r, Z.pow_1_r in H by lia. lia.
  - pose proof (Pos.size_gt m) as Hs.
    rewrite <- Pos2Z.inj_pow. now apply Pos2Z.pos_lt_pos.
Qed.

(** A valid finite float has 53 digits at most, and exactly 53 above the
    least exponent. *)
Lemma valid_finite (s : bool) (m : positive) (e : Z) :
  SpecFloat.valid_binary prec emax (S754_finite s m e) = true ->
  Z.pos (digits2_pos m) <= 53 /\ -1074 <= e
  /\ (Z.pos (digits2_pos m) = 53 \/ e = -1074).
Proof.
  unfold SpecFloat.valid_binary, bounded, canonical_mantissa.
  intros [H _]%andb_prop. apply Z.eqb_eq in H.
  rewrite fexp_eq in H. lia.
Qed.

Lemma SFltb_finite (m1 m2 : positive) (e1 e2 : Z) :
  SFltb (S754_finite false m1 e1) (S754_finite false m2 e2) = true ->
  e1 < e2 \/ (e1 = e2 /\ Z.pos m1 < Z.pos m2).
Proof.
  unfold SFltb, SFcompare.
  change (Pos.compare_cont Eq m1 m2) with (Pos.compare m1 m2).
  destruct (Z.compare_spec e1 e2); try discriminate; auto.
  destruct (Pos.compare_spec m1 m2); try discriminate.
  intros _. right. split; trivial.
Qed.

Lemma new_location_zero (n : Z) : new_location n 0 = loc_Exact.
Proof. unfold new_location. now destruct (Z.even n). Qed.

(** The quotient of a finite float by one of larger magnitude rounds
    below 1. *)
Lemma SFdiv_below_one (s1 s2 : bool) (m1 m2 : positive) (e1 e2 : Z) :
  SpecFloat.valid_binary prec emax (S754_finite s1 m1 e1) = true ->
  SpecFloat.valid_binary prec emax (S754_finite s2 m2 e2) = true ->
  SFltb (S754_finite false m1 e1) (S754_finite false m2 e2) = true ->
  match SF64div (S754_finite s1 m1 e1) (S754_finite s2 m2 e2) with
  | S754_zero _ => True
  | S754_finite _ _ e => e <= -53
  | _ => False
  end.
Proof.
  intros V1 V2 Hlt.
  apply valid_finite in V1, V2.
  apply SFltb_finite in Hlt.
  pose proof (digits_bounds m1) as D1.
  pose proof (digits_bounds m2) as D2.
  set (d1 := Z.pos (digits2_pos m1)) in *.
  set (d2 := Z.pos (digits2_pos m2)) in *.
  unfold SF64div, SFdiv, SFdiv_core_binary.
  change (Zdigits2 (Z.pos m1)) with d1.
  change (Zdigits2 (Z.pos m2)) with d2.
  rewrite fexp_eq.
  set (e' := Z.min (Z.max (d1 + e1 - (d2 + e2) - 53) (-1074)) (e1 - e2)).
  set (sh := e1 - e2 - e').
  set (m' := match sh with
             | 0 => Z.pos m1
             | Z.pos _ => Z.shiftl (Z.pos m1) sh
             | Z.neg _ => 0
             end).
  assert (Hdd : d1 + e1 <= d2 + e2).
  { destruct Hlt as [Hlt | [-> Hlt]]; [lia | ].
    destruct (Z.le_gt_cases d1 d2) as [ | Hgt]; [lia | exfalso].
    assert (2 ^ d2 <= 2 ^ (d1 - 1)) by (apply Z.pow_le_mono_r; lia).
    lia. }
  set (N := - e').
  assert (HN : 53 <= N) by (unfold N, e'; lia).
  assert (Hsh : 0 <= sh) by (unfold sh, e'; lia).
  assert (Hm' : m' = Z.pos m1 * 2 ^ sh).
  { unfold m'. destruct sh as [ | p | p]; try lia.
    rewrite Z.shiftl_mul_pow2; lia. }
  pose proof (Z_div_mod m' (Z.pos m2) ltac:(lia)) as Hdiv.
  destruct (Z.div_eucl m' (Z.pos m2)) as [q r].
  destruct Hdiv as [Hqr Hr].
  assert (Hq : 0 <= q).
  { assert (0 <= m') by (rewrite Hm'; apply Z.mul_nonneg_nonneg;
                         [lia | apply Z.pow_nonneg; lia]).
    nia. }
  replace e' with (- N) by (unfold N; lia).
  apply round_below_one; trivial.
  assert (H53 : 2 ^ N = 2 ^ 53 * 2 ^ (N - 53)).
  { rewrite <- Z.pow_add_r by lia. f_equal. lia. }
  assert (Hp : 0 < 2 ^ (N - 53)) by (apply Z.pow_pos_nonneg; lia).
  destruct Hlt as [Hlt | [He Hlt]].
  - (* e1 < e2: the divisor is normal *)
    assert (Hd2 : d2 = 53) by lia.
    assert (Hm2 : 2 ^ 52 <= Z.pos m2).
    { replace 52 with (d2 - 1) by lia. apply D2. }
    assert (Hm1 : Z.pos m1 < 2 ^ 53).
    { apply Z.lt_le_trans with (2 ^ d1); [apply D1 | ].
      apply Z.pow_le_mono_r; lia. }
    assert (Hs1 : 2 ^ sh * 2 <= 2 ^ N).
    { replace (2 ^ sh * 2) with (2 ^ (sh + 1))
        by (rewrite Z.pow_add_r by lia; lia).
      apply Z.pow_le_mono_r; unfold sh, N in *; lia. }
    assert (Hps : 0 < 2 ^ sh) by (apply Z.pow_pos_nonneg; lia).
    change (2 ^ 52) with 4503599627370496 in Hm2.
    change (2 ^ 53) with 9007199254740992 in *.
    destruct (Z.lt_ge_cases q (2 ^ N - 2 ^ (N - 53))) as [ | Hge];
      [now left | right].
    assert (q = 2 ^ N - 2 ^ (N - 53) /\ r = 0) as [Hq' ->] by nia.
    split; trivial. apply new_location_zero.
  - (* e1 = e2 and m1 < m2 *)
    left.
    assert (Hm2 : Z.pos m2 < 2 ^ 53).
    { apply Z.lt_le_trans with (2 ^ d2); [apply D2 | ].
      apply Z.pow_le_mono_r; lia. }
    assert (HshN : sh = N) by (unfold sh, N; lia).
    rewrite HshN in Hm'.
    change (2 ^ 53) with 9007199254740992 in *.
    nia.
Qed.

Local Open Scope float_scope.

Lemma Prim2SF_one : Prim2SF 1 = S754_finite false 4503599627370496 (-52).
Proof. reflexivity. Qed.

(** A finite float divided by a finite float of larger magnitude is below
    1 in magnitude, and finite. *)
Lemma div_lt_one (a b : float) :
  PyFloat.isfinite a = true -> PyFloat.isfinite b = true ->
  PyFloat.lt (PrimFloat.abs a) (PrimFloat.abs b) = true ->
  PyFloat.lt (PrimFloat.abs (a / b)) 1 = true
  /\ PyFloat.isfinite (a / b) = true.
Proof.
  unfold PyFloat.isfinite, PyFloat.lt.
  rewrite !FloatAxioms.ltb_spec, !FloatAxioms.abs_spec, FloatAxioms.div_spec,
    Prim2SF_one.
  pose proof (Prim2SF_valid a) as Va.
  pose proof (Prim2SF_valid b) as Vb.
  destruct (Prim2SF a) as [sa | sa | | sa ma ea]; try discriminate;
    destruct (Prim2SF b) as [sb | sb | | sb mb eb]; try discriminate;
    intros _ _ Hlt; cbn [SFabs] in Hlt; try discriminate Hlt.
  - now split.
  - pose proof (SFdiv_below_one sa sb ma mb ea eb Va Vb Hlt) as H.
    destruct (SF64div (S754_finite sa ma ea) (S754_finite sb mb eb))
      as [s | s | | s m e]; try contradiction.
    + now split.
    + split; trivial. cbn [SFabs]. unfold SFltb, SFcompare.
      destruct (Z.compare_spec e (-52)); trivial; lia.
Qed.

End Rounding.

(** ** Operands on the real axis

    The complex quotient of two operands with zero imaginary parts: its
    real part is the quotient of the real parts and its imaginary part is
    a zero. *)

Module RealAxis.

Local Open Scope float_scope.

Local Abbreviation is_zero := PyFloat.is_zero.
Local Abbreviation is_nonzero := PyFloat.is_nonzero.

Lemma eq_zero_is_zero (w : float) : PyFloat.eq w 0 = true <-> is_zero w.
Proof.
  unfold PyFloat.eq, PyFloat.is_zero.
  rewrite FloatAxioms.eqb_spec, FloatFacts.Prim2SF_zero. split.
  - destruct (Prim2SF w) as [s | s | | s m e]; eauto;
      try destruct s; discriminate.
  - now intros [s ->].
Qed.

Lemma isfinite_zero (w : float) : is_zero w -> PyFloat.isfinite w = true.
Proof. unfold PyFloat.isfinite. now intros [s ->]. Qed.

Lemma finite_cases (w : float) :
  PyFloat.isfinite w = true -> is_zero w \/ is_nonzero w.
Proof.
  unfold PyFloat.isfinite, PyFloat.is_zero, PyFloat.is_nonzero.
  destruct (Prim2SF w) as [s | s | | s m e]; try discriminate; eauto.
Qed.

Lemma mul_zero_r (a b : float) :
  PyFloat.isfinite a = true -> is_zero b -> is_zero (a * b).
Proof.
  unfold PyFloat.isfinite, PyFloat.is_zero. rewrite FloatAxioms.mul_spec.
  intros Ha [s ->].
  destruct (Prim2SF a) as [sa | sa | | sa ma ea]; try discriminate;
    simpl; eauto.
Qed.

Lemma add_zero_r (a b : float) : is_nonzero a -> is_zero b -> a + b = a.
Proof.
  intros (s & m & e & Ha) [s' Hb].
  apply Prim2SF_inj. now rewrite FloatAxioms.add_spec, Ha, Hb.
Qed.

Lemma add_zero_zero (a b : float) : is_zero a -> is_zero b -> is_zero (a + b).
Proof.
  unfold PyFloat.is_zero. rewrite FloatAxioms.add_spec. intros [s ->] [s' ->].
  destruct s, s'; simpl; eauto.
Qed.

Lemma sub_zero_zero (a b : float) : is_zero a -> is_zero b -> is_zero (a - b).
Proof.
  unfold PyFloat.is_zero. rewrite FloatAxioms.sub_spec. intros [s ->] [s' ->].
  destruct s, s'; simpl; eauto.
Qed.

Lemma div_zero_l (a b : float) : is_zero a -> is_nonzero b -> is_zero (a / b).
Proof.
  unfold PyFloat.is_zero. rewrite FloatAxioms.div_spec.
  intros [s ->] (s' & m & e & ->). simpl. eauto.
Qed.

Lemma abs_zero_lt_one (a : float) :
  is_zero a -> PyFloat.lt (PrimFloat.abs a) 1 = true.
Proof.
  unfold PyFloat.lt.
  rewrite FloatAxioms.ltb_spec, FloatAxioms.abs_spec, Rounding.Prim2SF_one.
  now intros [s ->].
Qed.

(** The larger of two magnitudes belongs to a float that is not zero. *)
Lemma lt_abs_nonzero (a b : float) :
  PyFloat.isfinite b = true ->
  PyFloat.lt (PrimFloat.abs a) (PrimFloat.abs b) = true -> is_nonzero b.
Proof.
  unfold PyFloat.isfinite, PyFloat.lt, PyFloat.is_nonzero.
  rewrite FloatAxioms.ltb_spec, !FloatAxioms.abs_spec.
  destruct (Prim2SF b) as [sb | sb | | sb mb eb]; try discriminate;
    intros _; eauto.
  destruct (Prim2SF a) as [sa | sa | | sa ma ea]; discriminate.
Qed.

Lemma fabs_zero (w : float) : is_zero w -> is_zero (PyComplex.fabs w).
Proof.
  intros H. unfold PyComplex.fabs.
  destruct (w <? 0); trivial.
  destruct H as [s H]. exists (negb s).
  now rewrite FloatAxioms.opp_spec, H.
Qed.

Lemma fabs_nonzero (w : float) :
  is_nonzero w ->
  exists m e, Prim2SF (PyComplex.fabs w) = S754_finite false m e.
Proof.
  intros (s & m & e & H). exists m, e. unfold PyComplex.fabs.
  rewrite FloatAxioms.ltb_spec, H, FloatFacts.Prim2SF_zero.
  destruct s; simpl; trivial.
  now rewrite FloatAxioms.opp_spec, H.
Qed.

(** The quotient of [a + ia j] by [c + ic j] with [ia] and [ic] zeros
    and [c] not zero. *)
Lemma quot_real (a ia c ic : float) :
  PyFloat.isfinite a = true -> is_zero ia -> is_nonzero c -> is_zero ic ->
  exists r i,
    PyComplex.quot (Complex a ia) (Complex c ic) = Ok (Complex r i)
    /\ is_zero i
    /\ ((is_nonzero a /\ r = a / c) \/ (is_zero a /\ is_zero r)).
Proof.
  intros Ha Hia Hc Hic.
  unfold PyComplex.quot. simpl real. simpl imag.
  destruct (fabs_nonzero c Hc) as (mc & ec & Hfc).
  destruct (fabs_zero ic Hic) as [sic Hfic].
  assert (Hle : (PyComplex.fabs ic <=? PyComplex.fabs c) = true).
  { rewrite FloatAxioms.leb_spec, Hfic, Hfc. reflexivity. }
  assert (Hne : (PyComplex.fabs c =? 0) = false).
  { rewrite FloatAxioms.eqb_spec, Hfc, FloatFacts.Prim2SF_zero.
    reflexivity. }
  rewrite Hle, Hne.
  pose proof (div_zero_l ic c Hic Hc) as Hratio.
  set (ratio := ic / c) in *.
  assert (Hdenom : c + ic * ratio = c).
  { apply add_zero_r; trivial.
    apply mul_zero_r; trivial. now apply isfinite_zero. }
  rewrite Hdenom.
  assert (Hi : is_zero ((ia - a * ratio) / c)).
  { apply div_zero_l; trivial. apply sub_zero_zero; trivial.
    now apply mul_zero_r. }
  assert (Hiar : is_zero (ia * ratio)).
  { apply mul_zero_r; trivial. now apply isfinite_zero. }
  destruct (finite_cases a Ha) as [Hza | Hna].
  - exists ((a + ia * ratio) / c), ((ia - a * ratio) / c).
    split; [reflexivity | split; [assumption | right]].
    split; trivial. apply div_zero_l; trivial.
    now apply add_zero_zero.
  - exists (a / c), ((ia - a * ratio) / c).
    rewrite (add_zero_r a (ia * ratio) Hna Hiar).
    split; [reflexivity | split; [assumption | left; now split]].
Qed.

End RealAxis.

(** ** Exchanging the operands

    Addition is commutative, the comparisons to a negation can be
    exchanged, and the strict order is asymmetric. *)

Module Commute.

Local Open Scope float_scope.

Lemma SFadd_comm (a b : spec_float) :
  SFadd prec emax a b = SFadd prec emax b a.
Proof.
  destruct a as [sa | sa | | sa ma ea], b as [sb | sb | | sb mb eb];
    simpl; trivial; try (destruct sa, sb; reflexivity).
  now rewrite (Z.min_comm ea eb), Z.add_comm.
Qed.

Lemma add_comm (a b : float) : a + b = b + a.
Proof.
  apply Prim2SF_inj. rewrite !FloatAxioms.add_spec. apply SFadd_comm.
Qed.

Lemma SFopp_involutive (a : spec_float) : SFopp (SFopp a) = a.
Proof. destruct a; simpl; now rewrite ?negb_involutive. Qed.

Lemma SFcompare_opp (a b : spec_float) :
  SFcompare (SFopp a) (SFopp b) = SFcompare b a.
Proof.
  rewrite (FloatOrder.SFcompare_swap a b).
  destruct a as [sa | sa | | sa ma ea], b as [sb | sb | | sb mb eb];
    simpl; trivial; try (destruct sa; reflexivity);
    try (destruct sb; reflexivity); try (destruct sa, sb; reflexivity).
  destruct sa, sb; simpl; trivial;
    destruct (ea ?= eb)%Z; simpl; trivial;
    now rewrite ?CompOpp_involutive.
Qed.

Lemma eq_opp_swap (a b : float) : PyFloat.eq a (- b) = PyFloat.eq b (- a).
Proof.
  unfold PyFloat.eq.
  rewrite !FloatAxioms.eqb_spec, !FloatAxioms.opp_spec. unfold SFeqb.
  rewrite <- (SFopp_involutive (Prim2SF a)) at 1.
  now rewrite SFcompare_opp.
Qed.


(** [a >= b] excludes [a < b]. *)
Lemma ge_not_lt (a b : float) :
  PyFloat.ge a b = true -> PyFloat.lt a b = false.
Proof.
  unfold PyFloat.ge, PyFloat.lt.
  rewrite FloatAxioms.leb_spec, FloatAxioms.ltb_spec.
  unfold SFleb, SFltb.
  rewrite (FloatOrder.SFcompare_swap (Prim2SF a) (Prim2SF b)).
  destruct (SFcompare (Prim2SF a) (Prim2SF b)) as [[ | | ] | ];
    simpl; trivial; discriminate.
Qed.

Lemma sum_comm (x y : complex) : PyComplex.sum x y = PyComplex.sum y x.
Proof.
  unfold PyComplex.sum. now rewrite (add_comm (real x)), (add_comm (imag x)).
Qed.

Lemma eq_neg_swap (x y : complex) :
  PyComplex.eq x (PyComplex.neg y) = PyComplex.eq y (PyComplex.neg x).
Proof.
  unfold PyComplex.eq, PyComplex.neg. simpl.
  now rewrite (eq_opp_swap (real x)), (eq_opp_swap (imag x)).
Qed.


End Commute.

(** ** NaN: every comparison with it is false, and sums keep it *)

Module NaN.

Local Open Scope float_scope.

Lemma isnan_spec (a : float) : isnan a = true -> Prim2SF a = S754_nan.
Proof. unfold isnan. now destruct (Prim2SF a). Qed.

Lemma nan_eq (a b : float) : isnan a = true -> PyFloat.eq a b = false.
Proof.
  intros H. unfold PyFloat.eq.
  now rewrite FloatAxioms.eqb_spec, (isnan_spec a H).
Qed.

Lemma nan_lt_l (a b : float) : isnan a = true -> PyFloat.lt a b = false.
Proof.
  intros H. unfold PyFloat.lt.
  now rewrite FloatAxioms.ltb_spec, (isnan_spec a H).
Qed.

Lemma nan_lt_r (a b : float) : isnan b = true -> PyFloat.lt a b = false.
Proof.
  intros H. unfold PyFloat.lt.
  rewrite FloatAxioms.ltb_spec, (isnan_spec b H).
  unfold SFltb. now destruct (Prim2SF a).
Qed.

Lemma nan_add (a b : float) : isnan a = true -> isnan (a + b) = true.
Proof.
  intros H. unfold isnan.
  now rewrite FloatAxioms.add_spec, (isnan_spec a H).
Qed.

Lemma nan_not_finite (a : float) :
  isnan a = true -> PyFloat.isfinite a = false.
Proof. intros H. unfold PyFloat.isfinite. now rewrite (isnan_spec a H). Qed.

Lemma nan_isnan : isnan nan = true.
Proof. reflexivity. Qed.

End NaN.

(** ** Integer-valued floats

    An integer-valued float is a fraction of denominator 1. *)

Lemma as_integer_ratio_integer (f : float) :
  PyFloat.is_integer f = true ->
  exists n, PyFloat.as_integer_ratio f = Ok (n, 1).
Proof.
  unfold PyFloat.is_integer, PyFloat.as_integer_ratio.
  destruct (Prim2SF f) as [s | s | | s m e]; try discriminate; eauto.
  destruct (0 <=? e) eqn:He; simpl; eauto.
  intros Hm. apply Z.eqb_eq in Hm. apply Z.leb_gt in He.
  set (d := 2 ^ (- e)) in *.
  assert (Hd : 0 < d) by (apply Z.pow_pos_nonneg; lia).
  assert (Hdiv : (d | cond_Zopp s (Z.pos m))).
  { apply Z.mod_divide in Hm; [ | lia].
    destruct s; simpl; [ | assumption].
    change (Z.neg m) with (- Z.pos m). now apply Z.divide_opp_r. }
  assert (Hg : Z.gcd (cond_Zopp s (Z.pos m)) d = d).
  { rewrite Z.gcd_comm. apply Z.divide_gcd_iff; [lia | assumption]. }
  rewrite Hg, Z.div_same by lia. eauto.
Qed.

(** ** The edge-case resolver *)

Section EdgeCases.
Context {libm : Libm}.
Variables (tol : float) (max_terms : Z) (boundary_threshold : float)
          (return_info : bool).

Local Abbreviation evaluate x y alpha :=
  (aqueeq_binomial x y alpha tol max_terms boundary_threshold return_info).

(** Past the edge cases the call is the preconditioning stage. *)
Lemma not_edge_case (x y alpha : complex) :
  edge_case x y alpha = false ->
  evaluate x y alpha =
    preconditioning x y alpha tol max_terms boundary_threshold return_info.
Proof.
  unfold edge_case, zero_x, zero_y, cancelling_integer, zero_sum.
  intros H.
  repeat (apply orb_false_elim in H; destruct H as [H ?]).
  unfold aqueeq_binomial.
  repeat match goal with E : _ = false |- _ => rewrite E; clear E end.
  reflexivity.
Qed.

(** What [evaluate(x, -x, alpha)] does for a finite [x]: the
    cancelling-integer case comes first, then the zero-sum case. *)
Lemma zero_sum_eval (x alpha : complex) :
  PyComplex.isfinite x = true ->
  evaluate x (PyComplex.neg x) alpha =
    if is_real alpha && PyFloat.is_integer (real alpha) then
      ret (with_info return_info PyComplex.zero (Info.terminal false None))
    else if PyFloat.gt (real alpha) 0 && is_real alpha then
      ret (with_info return_info PyComplex.zero (Info.terminal true None))
    else raise DomainError.
Proof.
  intros Hx. unfold aqueeq_binomial, is_real.
  assert (G1 : PyComplex.eq x PyComplex.zero
               && PyComplex.ne (PyComplex.neg x) PyComplex.zero = false).
  { unfold PyComplex.ne. rewrite ComplexFacts.eq_zero_neg.
    now destruct (PyComplex.eq x PyComplex.zero). }
  assert (G2 : PyComplex.eq (PyComplex.neg x) PyComplex.zero
               && PyComplex.ne x PyComplex.zero = false).
  { unfold PyComplex.ne. rewrite ComplexFacts.eq_zero_neg.
    now destruct (PyComplex.eq x PyComplex.zero). }
  rewrite G1, G2, ComplexFacts.neg_involutive,
    (ComplexFacts.complex_eq_refl_finite x Hx),
    (ComplexFacts.sum_neg_self x Hx).
  reflexivity.
Qed.

(** C1, as the code has it.  For a finite [x], [evaluate(x, -x, alpha)]
    returns 0 exactly when [alpha] is real and either an integer (of any
    sign, zero included) or greater than 0, and raises the domain error
    exactly otherwise: when [alpha] is complex, or real, not an integer and
    not greater than 0. *)
Theorem zero_sum_domain_error (x alpha : complex) :
  PyComplex.isfinite x = true ->
  let out := evaluate x (PyComplex.neg x) alpha in
  (snd out = Exception DomainError <->
     is_real alpha = false
     \/ (PyFloat.is_integer (real alpha) = false
         /\ PyFloat.gt (real alpha) 0 = false))
  /\ (returns_value out PyComplex.zero <->
        is_real alpha = true
        /\ (PyFloat.is_integer (real alpha) = true
            \/ PyFloat.gt (real alpha) 0 = true)).
Proof.
  intros Hx out. subst out. rewrite (zero_sum_eval x alpha Hx).
  unfold returns_value, with_info.
  destruct (is_real alpha), (PyFloat.is_integer (real alpha)),
    (PyFloat.gt (real alpha) 0); simpl; split; split; intros H;
    try discriminate H;
    try (match type of H with ex _ => destruct H as [i H] end;
         discriminate H);
    try (eexists; reflexivity);
    intuition (auto; discriminate).
Qed.

(** C10.  For every real integer [alpha], zero and the negative ones
    included, [evaluate(0, 0, alpha)] returns [0 + 0j] and raises nothing:
    the cancelling-operands case is met before the zero-sum case. *)
Theorem zero_zero_integer_power (alpha : complex) :
  is_real alpha = true ->
  PyFloat.is_integer (real alpha) = true ->
  evaluate PyComplex.zero PyComplex.zero alpha
  = ([], Value (with_info return_info PyComplex.zero
                  (Info.mk 0 false None None None None None))).
Proof.
  unfold is_real. intros Hr Hi.
  unfold aqueeq_binomial.
  change (PyComplex.eq PyComplex.zero PyComplex.zero) with true.
  change (PyComplex.ne PyComplex.zero PyComplex.zero) with false.
  change (PyComplex.eq PyComplex.zero (PyComplex.neg PyComplex.zero))
    with true.
  simpl. now rewrite Hr, Hi.
Qed.

(** C7.  For every [y != 0] and every [alpha], [evaluate(0, y, alpha)] is
    the complex power [y ** alpha], with [terms_used = 0] and
    [used_fallback = False] in the diagnostics; no warning is issued. *)
Theorem zero_operand_identity (x y alpha : complex) :
  PyComplex.eq x PyComplex.zero = true ->
  PyComplex.ne y PyComplex.zero = true ->
  let out := evaluate x y alpha in
  fst out = []
  /\ snd out = lift
       (result <- complex_pow y alpha ;;
        Ok (with_info return_info result
              (Info.mk 0 false (Some PyComplex.zero)
                 None None None None)))%result.
Proof.
  intros Hx Hy. unfold aqueeq_binomial. rewrite Hx, Hy. simpl.
  unfold bind, call, ret. simpl.
  destruct (complex_pow y alpha); simpl; auto.
Qed.

End EdgeCases.

(** ** Sequencing of calls and warnings *)

Lemma bind_ret {A B : Type} (a : A) (k : A -> M B) : bind (ret a) k = k a.
Proof. unfold bind, ret; simpl. now destruct (k a). Qed.

Lemma bind_call_ok {A B : Type} (a : A) (k : A -> M B) :
  bind (call (Ok a)) k = k a.
Proof. exact (bind_ret a k). Qed.

Lemma bind_warn {B : Type} (w : advisory) (k : unit -> M B) :
  bind (warn w) k = (w :: fst (k tt), snd (k tt)).
Proof. reflexivity. Qed.

(** What the program computes for [exp(alpha * log(w))] is [cmath.log],
    the complex product and [cmath.exp], in that order. *)
Lemma lift_log_exp {libm : Libm} {A : Type} (alpha w : complex)
    (f : complex -> A) :
  lift (result <- log_exp alpha w ;; Ok (f result))%result
  = lift (l <- cmath_log w ;;
          result <- cmath_exp (PyComplex.prod alpha l) ;;
          Ok (f result))%result.
Proof. unfold log_exp. destruct (cmath_log w); reflexivity. Qed.


(** ** Magnitudes and quotients *)

Section Magnitudes.
Context {libm : Libm}.

(** [abs] of finite components is finite when it returns. *)
Lemma abs_isfinite (w : complex) (a : float) :
  PyComplex.isfinite w = true -> PyComplex.abs w = Ok a ->
  PyFloat.isfinite a = true.
Proof.
  unfold PyComplex.abs, PyComplex.isfinite. intros ->.
  destruct (PyFloat.isfinite (hypot (real w) (imag w))) eqn:E;
    intros [= <-]; assumption.
Qed.

(** A quotient by a divisor that is not zero raises nothing. *)
Lemma quot_defined (a b : complex) :
  PyComplex.ne b PyComplex.zero = true ->
  exists z, PyComplex.quot a b = Ok z.
Proof.
  unfold PyComplex.ne, PyComplex.eq, PyComplex.zero; simpl.
  intros Hb. unfold PyComplex.quot.
  destruct (PyComplex.fabs (imag b) <=? PyComplex.fabs (real b))%float
    eqn:Hle.
  - destruct (PyComplex.fabs (real b) =? 0)%float eqn:Hz; eauto.
    exfalso.
    pose proof (FloatOrder.fabs_le_zero _ _ Hle Hz) as Hi.
    rewrite <- (FloatOrder.fabs_eq_zero (real b)) in Hb.
    unfold PyFloat.eq in *. now rewrite Hz, Hi in Hb.
  - destruct (PyComplex.fabs (real b) <=? PyComplex.fabs (imag b))%float;
      eauto.
Qed.

Lemma isfinite_abs (w : float) :
  PyFloat.isfinite (PrimFloat.abs w) = PyFloat.isfinite w.
Proof.
  unfold PyFloat.isfinite. rewrite FloatAxioms.abs_spec.
  now destruct (Prim2SF w).
Qed.

(** The magnitude of an operand on the real axis. *)
Lemma abs_real (a ia : float) :
  hypot_axis -> PyFloat.isfinite a = true -> PyFloat.is_zero ia ->
  PyComplex.abs (Complex a ia) = Ok (PrimFloat.abs a).
Proof.
  intros Hax Ha Hia. unfold PyComplex.abs. simpl.
  rewrite Ha, (RealAxis.isfinite_zero ia Hia). simpl.
  rewrite (Hax a ia) by now apply RealAxis.eq_zero_is_zero.
  now rewrite isfinite_abs, Ha.
Qed.

(** For finite operands on the real axis, the ratio of the smaller to
    the larger magnitude rounds below 1. *)
Lemma real_ratio_below_one (x y : complex) (ax ay : float) :
  hypot_axis ->
  PyComplex.isfinite x = true -> PyComplex.isfinite y = true ->
  is_real x = true -> is_real y = true ->
  PyComplex.abs x = Ok ax -> PyComplex.abs y = Ok ay ->
  PyFloat.lt ax ay = true ->
  exists z abs_z,
    PyComplex.quot x y = Ok z /\ PyComplex.abs z = Ok abs_z
    /\ PyFloat.lt abs_z 1 = true.
Proof.
  intros Hax. destruct x as [a ia], y as [c ic].
  unfold PyComplex.isfinite, is_real; simpl.
  intros [Ha _]%andb_prop [Hc _]%andb_prop Hia Hic.
  apply RealAxis.eq_zero_is_zero in Hia, Hic.
  rewrite (abs_real a ia Hax Ha Hia), (abs_real c ic Hax Hc Hic).
  intros [= <-] [= <-] Hlt.
  pose proof (RealAxis.lt_abs_nonzero a c Hc Hlt) as Hnc.
  destruct (RealAxis.quot_real a ia c ic Ha Hia Hnc Hic)
    as (r & i & Hq & Hi & Hr).
  assert (Hrb : PyFloat.lt (PrimFloat.abs r) 1 = true
                /\ PyFloat.isfinite r = true).
  { destruct Hr as [[_ ->] | [_ Hzr]].
    - now apply Rounding.div_lt_one.
    - split; [now apply RealAxis.abs_zero_lt_one
             | now apply RealAxis.isfinite_zero]. }
  destruct Hrb as [Hlt1 Hfr].
  exists (Complex r i), (PrimFloat.abs r).
  split; [assumption | split; [ | assumption]].
  now apply abs_real.
Qed.

End Magnitudes.

(** ** Fallbacks and the preconditioner *)

Section Stages.
Context {libm : Libm}.
Variables (tol : float) (max_terms : Z) (boundary_threshold : float)
          (return_info : bool).

Local Abbreviation evaluate x y alpha :=
  (aqueeq_binomial x y alpha tol max_terms boundary_threshold return_info).

(** Finite operands that are not zero and do not add up to zero meet no
    edge case. *)
Lemma regular_operands (x y alpha : complex) :
  PyComplex.isfinite x = true -> PyComplex.isfinite y = true ->
  PyComplex.ne x PyComplex.zero = true ->
  PyComplex.ne y PyComplex.zero = true ->
  PyComplex.ne (PyComplex.sum x y) PyComplex.zero = true ->
  edge_case x y alpha = false.
Proof.
  unfold PyComplex.ne. intros Fx Fy Hx Hy Hs.
  apply negb_true_iff in Hx, Hy, Hs.
  unfold edge_case, zero_x, zero_y, cancelling_integer, zero_sum.
  rewrite Hx, Hy, Hs. simpl.
  destruct (PyComplex.eq x (PyComplex.neg y)) eqn:E; trivial.
  now rewrite (ComplexFacts.sum_eq_neg x y Fx Fy E) in Hs.
Qed.

(** Past the edge cases, operands of different magnitude go to the
    boundary policy with the base and the ratio of the preconditioner. *)
Lemma preconditioned_eval (x y alpha A z : complex) :
  edge_case x y alpha = false ->
  preconditioned x y A z ->
  evaluate x y alpha =
    boundary_policy x y alpha A z tol max_terms boundary_threshold
      return_info.
Proof.
  intros He (ax & ay & Hax & Hay & Hsel).
  rewrite (not_edge_case _ _ _ _ _ _ _ He).
  unfold preconditioning. rewrite Hax, Hay, !bind_call_ok.
  destruct Hsel as [(Hlt & -> & Hq) | (Hlt & Hgt & -> & Hq)].
  - now rewrite Hlt, Hq, bind_call_ok.
  - now rewrite Hlt, Hgt, Hq, bind_call_ok.
Qed.

(** C4, as the code has it.  With [y = 0], [x] real and negative, [alpha]
    real, and an odd denominator in
    [Fraction(alpha.real).limit_denominator(1000)], the call ends as the
    float power [abs(x.real) ** alpha.real] does.  When the power
    returns, the call returns the real value
    [-(abs(x.real) ** alpha.real)] with a zero imaginary part, and
    [terms_used = 0] in the diagnostics.  An [OverflowError] of the power
    is not caught and ends the call.  A [ValueError] or a
    [ZeroDivisionError] of it is caught, and the call is the complex
    power [x ** alpha]. *)
Theorem real_odd_root_override (x y alpha : complex) (f frac : Fraction.t) :
  PyComplex.eq y PyComplex.zero = true ->
  is_real x = true ->
  PyFloat.lt (real x) 0 = true ->
  is_real alpha = true ->
  Fraction.of_float (real alpha) = Ok f ->
  Fraction.limit_denominator f 1000 = Ok frac ->
  Z.odd (Fraction.denominator frac) = true ->
  evaluate x y alpha
  = match float_pow (PrimFloat.abs (real x)) (real alpha) with
    | Returns abs_root =>
        ([], Value (with_info return_info (Complex (- abs_root) 0)
                      (Info.mk 0 false (Some PyComplex.zero)
                         (Some "real odd root"%string) None None None)))
    | Raises OverflowError => ([], Exception (Library OverflowError))
    | Raises _ =>
        ([], lift (result <- complex_pow x alpha ;;
                   Ok (with_info return_info result
                         (Info.mk 0 false (Some PyComplex.zero)
                            None None None None)))%result)
    end.
Proof.
  unfold is_real. intros Hy Hx Hneg Ha Hf Hfrac Hodd.
  unfold aqueeq_binomial, PyComplex.ne. rewrite Hy. simpl negb.
  rewrite andb_false_r.
  assert (Hx0 : PyComplex.eq x PyComplex.zero = false).
  { unfold PyComplex.eq, PyComplex.zero; simpl.
    now rewrite (FloatOrder.lt_zero_ne _ Hneg). }
  rewrite Hx0, Hx, Ha, Hneg. simpl.
  unfold real_odd_root. rewrite Hf. simpl. rewrite Hfrac. simpl.
  rewrite Zmod_odd, Hodd. simpl.
  destruct (float_pow (PrimFloat.abs (real x)) (real alpha))
    as [abs_root | [ | | ]]; simpl; try reflexivity;
    destruct (complex_pow x alpha); reflexivity.
Qed.



(** C8, as the code has it.  For finite [x] and [y], neither zero, of
    different magnitude, with [x + y != 0], the preconditioner takes as
    [A] the operand of strictly larger magnitude and as [z] the quotient
    of the other operand by [A], and hands both to the boundary policy.
    For operands on the real axis the rounded ratio has [abs(z) < 1];
    for complex operands nothing bounds it below 1. *)
Theorem preconditioner_selects (x y alpha : complex) (ax ay : float) :
  PyComplex.isfinite x = true -> PyComplex.isfinite y = true ->
  PyComplex.ne x PyComplex.zero = true ->
  PyComplex.ne y PyComplex.zero = true ->
  PyComplex.abs x = Ok ax -> PyComplex.abs y = Ok ay ->
  PyFloat.ne ax ay = true ->
  PyComplex.ne (PyComplex.sum x y) PyComplex.zero = true ->
  exists A B z,
    ((A = y /\ B = x /\ PyFloat.lt ax ay = true)
     \/ (A = x /\ B = y /\ PyFloat.gt ax ay = true))
    /\ PyComplex.quot B A = Ok z
    /\ evaluate x y alpha =
         boundary_policy x y alpha A z tol max_terms boundary_threshold
           return_info
    /\ (hypot_axis -> is_real x = true -> is_real y = true ->
        exists abs_z,
          PyComplex.abs z = Ok abs_z /\ PyFloat.lt abs_z 1 = true).
Proof.
  intros Fx Fy Hx Hy Hax Hay Hne Hs.
  pose proof (regular_operands x y alpha Fx Fy Hx Hy Hs) as He.
  apply negb_true_iff in Hne.
  destruct (PyFloat.lt ax ay) eqn:Hlt.
  - destruct (quot_defined x y Hy) as [z Hz].
    exists y, x, z. split; [auto | split; [assumption | split]].
    + apply preconditioned_eval; trivial.
      exists ax, ay.
      split; [assumption | split; [assumption | left; auto]].
    + intros Hhyp Hrx Hry.
      destruct (real_ratio_below_one x y ax ay Hhyp Fx Fy Hrx Hry Hax Hay
                  Hlt) as (z' & abs_z & Hz' & Habs & Hone).
      exists abs_z. split; [congruence | assumption].
  - destruct (FloatOrder.trichotomy ax ay
                (abs_isfinite x ax Fx Hax) (abs_isfinite y ay Fy Hay) Hne)
      as [Hlt' | Hgt]; [congruence | ].
    destruct (quot_defined y x Hx) as [z Hz].
    exists x, y, z. split; [auto | split; [assumption | split]].
    + apply preconditioned_eval; trivial.
      exists ax, ay.
      split; [assumption | split; [assumption | right; auto]].
    + intros Hhyp Hrx Hry.
      destruct (real_ratio_below_one y x ay ax Hhyp Fy Fx Hry Hrx Hay Hax
                  Hgt) as (z' & abs_z & Hz' & Habs & Hone).
      exists abs_z. split; [congruence | assumption].
Qed.

End Stages.

(** ** The series loop *)

Section SeriesLoop.
Context {libm : Libm}.
Variables (alpha z : complex) (tol : float) (effective_max : Z).

Lemma recurrence_multiplier (term : complex) (k : Z) :
  recurrence alpha z term k =
    (m <- multiplier alpha z k ;; Ok (PyComplex.prod term m))%result.
Proof.
  unfold recurrence, multiplier.
  destruct (PyComplex.of_int k); reflexivity.
Qed.

(** A run of the loop of the program is a summation of the
    specification. *)
Lemma series_loop_sound (fuel : nat) :
  forall (Sk term : complex) (k : Z) (final : complex * complex * Z),
    series_loop fuel alpha z tol effective_max Sk term k = Ok final ->
    summation alpha z tol effective_max (Sk, term, k) final.
Proof.
  induction fuel as [ | fuel IH]; intros Sk term k final; simpl.
  - discriminate.
  - destruct (k <=? effective_max) eqn:Hk.
    + apply Z.leb_le in Hk.
      destruct (multiplier alpha z k) as [m | | ] eqn:Hm;
        simpl; try discriminate.
      assert (Hrec : recurrence alpha z term k
                     = Ok (PyComplex.prod term m)).
      { now rewrite recurrence_multiplier, Hm. }
      destruct (PyComplex.abs (PyComplex.prod term m))
        as [abs_term | | ] eqn:Hterm; simpl; try discriminate.
      destruct (PyComplex.abs Sk) as [abs_S | | ] eqn:HS;
        simpl; try discriminate.
      fold (under_floor abs_term abs_S).
      destruct (under_floor abs_term abs_S) eqn:Hfloor.
      * intros [= <-]. apply summation_stop; trivial.
        eapply floor_stop; eauto.
      * destruct (PyComplex.abs
                    (PyComplex.sum Sk (PyComplex.prod term m)))
          as [abs_S' | | ] eqn:HS'; simpl; try discriminate.
        fold (under_tolerance tol abs_term abs_S').
        destruct (under_tolerance tol abs_term abs_S') eqn:Htol.
        -- intros [= <-]. apply summation_stop; trivial.
           eapply tolerance_stop; eauto.
        -- intros H. eapply summation_continue; trivial.
           ++ eapply go_on; eauto.
           ++ now apply IH.
    + apply Z.leb_gt in Hk. intros [= <-].
      now apply summation_exhausted.
Qed.

(** A summation of the specification is a run of the loop of the program,
    given the fuel for the iterations that are left. *)
Lemma series_loop_complete (st final : complex * complex * Z) :
  summation alpha z tol effective_max st final ->
  forall fuel : nat,
    (Z.to_nat (effective_max + 1 - snd st) < fuel)%nat ->
    series_loop fuel alpha z tol effective_max (fst (fst st)) (snd (fst st))
      (snd st) = Ok final.
Proof.
  induction 1 as [Sk term k Hk | Sk term Sk' term' k Hk Hit
                 | Sk term Sk' term' k final Hk Hit Hrest IH];
    intros [ | fuel] Hfuel; simpl in *; try lia.
  - apply Z.leb_gt in Hk. now rewrite Hk.
  - apply Z.leb_le in Hk. rewrite Hk.
    inversion Hit
      as [t a b Hrec Ht HS Hfl | t a b c Hrec Ht HS Hfl HS' Htol | ];
      subst; rewrite recurrence_multiplier in Hrec;
      destruct (multiplier alpha z k) as [m | | ]; simpl in Hrec;
      try discriminate; injection Hrec as <-; simpl;
      rewrite Ht; simpl; rewrite HS; simpl;
      fold (under_floor a b); rewrite Hfl; trivial.
    rewrite HS'; simpl.
    fold (under_tolerance tol a c). now rewrite Htol.
  - pose proof Hk as Hk'. apply Z.leb_le in Hk'. rewrite Hk'.
    inversion Hit as [ | | t a b c Hrec Ht HS Hfl HS' Htol];
      subst; rewrite recurrence_multiplier in Hrec;
      destruct (multiplier alpha z k) as [m | | ]; simpl in Hrec;
      try discriminate; injection Hrec as <-; simpl;
      rewrite Ht; simpl; rewrite HS; simpl;
      fold (under_floor a b); rewrite Hfl.
    rewrite HS'; simpl.
    fold (under_tolerance tol a c). rewrite Htol.
    apply IH. lia.
Qed.

(** C3.  The loop of the program, as it is called, ends in a state
    exactly when the iterations described by the specification lead to
    it: each iteration updates the term by the recurrence, stops before
    adding it when [|term| < 1e-16 * |S|] or [|term| < 1e-14], and
    otherwise adds it and stops when [|term| < tol * |S|]. *)
Theorem series_loop_iterations (final : complex * complex * Z) :
  series_loop (series_fuel effective_max) alpha z tol effective_max
    PyComplex.one PyComplex.one 1 = Ok final
  <-> summation alpha z tol effective_max
        (PyComplex.one, PyComplex.one, 1) final.
Proof.
  split.
  - apply series_loop_sound.
  - intros H.
    apply (series_loop_complete _ _ H (series_fuel effective_max)).
    unfold series_fuel; simpl. lia.
Qed.

End SeriesLoop.

(** ** Termination: the fuel of the two loops is enough *)

Module Termination.

(** Past its first iteration the loop of [limit_denominator] keeps
    [0 <= q0 <= max], [1 <= q1 <= max] and [0 <= d < n], and [q0 + q1]
    grows with every iteration. *)
Lemma convergents_terminates (max_denominator : Z) (fuel : nat) :
  forall p0 q0 p1 q1 n d : Z,
    0 <= q0 <= max_denominator -> 1 <= q1 <= max_denominator ->
    0 <= d < n ->
    (Z.to_nat (2 * max_denominator - (q0 + q1)) < fuel)%nat ->
    Fraction.convergents fuel max_denominator p0 q0 p1 q1 n d <> OutOfFuel.
Proof.
  induction fuel as [ | fuel IH]; intros p0 q0 p1 q1 n d Hq0 Hq1 Hd Hfuel.
  - lia.
  - simpl. destruct (d =? 0) eqn:Hd0; [discriminate | ].
    apply Z.eqb_neq in Hd0.
    destruct (max_denominator <? q0 + n / d * q1) eqn:Hbreak;
      [discriminate | ].
    apply Z.ltb_ge in Hbreak.
    assert (Ha : 1 <= n / d).
    { apply Z.div_le_lower_bound; lia. }
    assert (Hmod : 0 <= n - n / d * d < d).
    { pose proof (Z.mod_pos_bound n d ltac:(lia)) as Hm.
      rewrite Z.mod_eq in Hm by lia. lia. }
    apply IH; lia.
Qed.

Lemma limit_denominator_terminates (self : Fraction.t) (max : Z) :
  Fraction.limit_denominator self max <> OutOfFuel.
Proof.
  unfold Fraction.limit_denominator.
  destruct (max <? 1) eqn:Hmax; [discriminate | ].
  apply Z.ltb_ge in Hmax.
  destruct (Fraction.denominator self <=? max) eqn:Hden; [discriminate | ].
  apply Z.leb_gt in Hden.
  set (N := Fraction.numerator self) in *.
  set (D := Fraction.denominator self) in *.
  assert (Hloop : Fraction.convergents (Fraction.convergents_fuel max) max
                    0 1 1 0 N D <> OutOfFuel).
  { unfold Fraction.convergents_fuel.
    replace (2 * max + 3) with (Z.succ (2 * max + 2)) by lia.
    rewrite Z2Nat.inj_succ by lia. cbn [Fraction.convergents].
    destruct (D =? 0) eqn:HD; [discriminate | ].
    rewrite Z.mul_0_r, Z.add_0_r.
    destruct (max <? 1) eqn:H1; [apply Z.ltb_lt in H1; lia | ].
    pose proof (Z.mod_pos_bound N D ltac:(lia)) as Hm.
    rewrite Z.mod_eq in Hm by lia.
    rewrite (Z.mul_comm D (N / D)) in Hm.
    apply convergents_terminates; lia. }
  destruct (Fraction.convergents (Fraction.convergents_fuel max) max
              0 1 1 0 N D) as [[[[[[p0 q0] p1] q1] n] d] | e | ];
    simpl; try discriminate; [ | contradiction].
  destruct (q1 =? 0); [discriminate | ].
  unfold Fraction.make.
  destruct (q0 + (max - q0) / q1 * q1 =? 0); simpl; [discriminate | ].
  destruct (q1 =? 0); simpl; [discriminate | ].
  match goal with |- context [if ?c then _ else _] => destruct c end;
    discriminate.
Qed.

Section Loop.
Context {libm : Libm}.

Lemma of_int_terminates (k : Z) : PyComplex.of_int k <> OutOfFuel.
Proof.
  unfold PyComplex.of_int, PyFloat.of_int.
  match goal with |- context [if ?c then _ else _] => destruct c end;
    discriminate.
Qed.

Lemma quot_terminates (a b : complex) : PyComplex.quot a b <> OutOfFuel.
Proof.
  unfold PyComplex.quot.
  repeat match goal with
         | |- context [if ?c then _ else _] => destruct c
         end; discriminate.
Qed.

Lemma abs_terminates (w : complex) : PyComplex.abs w <> OutOfFuel.
Proof.
  unfold PyComplex.abs.
  repeat match goal with
         | |- context [if ?c then _ else _] => destruct c
         end; discriminate.
Qed.

Lemma multiplier_terminates (alpha z : complex) (k : Z) :
  multiplier alpha z k <> OutOfFuel.
Proof.
  unfold multiplier.
  pose proof (of_int_terminates k).
  destruct (PyComplex.of_int k); simpl; try discriminate; try contradiction.
  apply quot_terminates.
Qed.

(** The loop of the series never runs out of the fuel it is given for the
    iterations that are left. *)
Lemma series_loop_terminates (alpha z : complex) (tol : float)
    (effective_max : Z) (fuel : nat) :
  forall (Sk term : complex) (k : Z),
    (Z.to_nat (effective_max + 1 - k) < fuel)%nat ->
    series_loop fuel alpha z tol effective_max Sk term k <> OutOfFuel.
Proof.
  induction fuel as [ | fuel IH]; intros Sk term k Hfuel; [lia | ].
  simpl. destruct (k <=? effective_max) eqn:Hk; [ | discriminate].
  apply Z.leb_le in Hk.
  pose proof (multiplier_terminates alpha z k) as Hm.
  destruct (multiplier alpha z k) as [m | | ];
    simpl; try discriminate; try contradiction.
  pose proof (abs_terminates (PyComplex.prod term m)) as Ht.
  destruct (PyComplex.abs (PyComplex.prod term m));
    simpl; try discriminate; try contradiction.
  pose proof (abs_terminates Sk) as HS.
  destruct (PyComplex.abs Sk); simpl; try discriminate; try contradiction.
  match goal with |- context [if ?c then _ else _] => destruct c end;
    [discriminate | ].
  pose proof (abs_terminates (PyComplex.sum Sk (PyComplex.prod term m)))
    as HS'.
  destruct (PyComplex.abs (PyComplex.sum Sk (PyComplex.prod term m)));
    simpl; try discriminate; try contradiction.
  match goal with |- context [if ?c then _ else _] => destruct c end;
    [discriminate | ].
  apply IH. lia.
Qed.

End Loop.

End Termination.

(** ** How a call ends *)

Section Ends.
Context {libm : Libm}.

Lemma terminates_bind {A B : Type} (m : M A) (k : A -> M B) :
  terminates m -> (forall a, terminates (k a)) -> terminates (bind m k).
Proof.
  unfold terminates, bind. intros Hm Hk.
  destruct (snd m) as [a | e | ]; simpl; auto; congruence.
Qed.

Lemma terminates_call {A : Type} (r : result A) :
  r <> OutOfFuel -> terminates (call r).
Proof. unfold terminates. destruct r; simpl; congruence. Qed.

Lemma terminates_libcall {A : Type} (c : libcall A) :
  terminates (call (of_libcall c)).
Proof. apply terminates_call. destruct c; discriminate. Qed.

Lemma library_only_bind {A B : Type} (m : M A) (k : A -> M B) :
  library_only m -> (forall a, library_only (k a)) ->
  library_only (bind m k).
Proof.
  unfold library_only, bind. intros Hm Hk.
  destruct (snd m) as [a | e | ]; simpl; auto; congruence.
Qed.

Lemma library_only_call {A : Type} (r : result A) : library_only (call r).
Proof. unfold library_only. destruct r; discriminate. Qed.

Lemma log_exp_terminates (alpha w : complex) : log_exp alpha w <> OutOfFuel.
Proof.
  unfold log_exp. destruct (cmath_log w); simpl; try discriminate.
  destruct (cmath_exp (PyComplex.prod alpha a)); discriminate.
Qed.

Lemma real_odd_root_terminates (x alpha : complex) (return_info : bool) :
  real_odd_root x alpha return_info <> OutOfFuel.
Proof.
  unfold real_odd_root, Fraction.of_float.
  destruct (PyFloat.as_integer_ratio (real alpha)) as [nd | e | ] eqn:E;
    simpl; try discriminate.
  - pose proof (Termination.limit_denominator_terminates
                  (Fraction.mk (fst nd) (snd nd)) 1000) as H.
    destruct (Fraction.limit_denominator _ 1000);
      simpl; try discriminate; try contradiction.
    destruct (_ =? 1); try discriminate.
    destruct (float_pow _ _); discriminate.
  - unfold PyFloat.as_integer_ratio in E.
    destruct (Prim2SF (real alpha)); try discriminate.
    destruct (0 <=? e); discriminate.
Qed.

Section Stages.
Variables (tol : float) (max_terms : Z) (boundary_threshold : float)
          (return_info : bool).

Ltac ends_step :=
  first
    [ apply terminates_bind; [ | intros ? ]
    | apply library_only_bind; [ | intros ? ]
    | apply terminates_libcall
    | apply library_only_call
    | apply terminates_call;
      first [ apply Termination.abs_terminates
            | apply Termination.quot_terminates
            | apply log_exp_terminates
            | apply Termination.series_loop_terminates;
              unfold series_fuel; simpl; lia ]
    | discriminate
    | match goal with
      | |- context [if ?c then _ else _] => destruct c
      | |- context [let '(_, _) := ?p in _] => destruct p
      end ].

Lemma series_stage_ends (alpha A z : complex) :
  terminates (series_stage alpha A z tol max_terms boundary_threshold
                return_info)
  /\ library_only (series_stage alpha A z tol max_terms boundary_threshold
                     return_info).
Proof.
  unfold series_stage. split; repeat ends_step.
Qed.

Lemma boundary_policy_ends (x y alpha A z : complex) :
  terminates (boundary_policy x y alpha A z tol max_terms
                boundary_threshold return_info)
  /\ library_only (boundary_policy x y alpha A z tol max_terms
                     boundary_threshold return_info).
Proof.
  unfold boundary_policy.
  split; repeat first [ apply series_stage_ends | ends_step ].
Qed.

Lemma preconditioning_ends (x y alpha : complex) :
  terminates (preconditioning x y alpha tol max_terms boundary_threshold
                return_info)
  /\ library_only (preconditioning x y alpha tol max_terms
                     boundary_threshold return_info).
Proof.
  unfold preconditioning.
  split; repeat first [ apply boundary_policy_ends | ends_step ].
Qed.

(** X15.  Every call ends, with a value or with an exception, whatever
    the operands, the tolerance and the budget: the loop of the series
    makes [effective_max] iterations at most, and the loop of
    [limit_denominator] ends within [2 * 1000 + 3] iterations. *)
Theorem aqueeq_binomial_total (x y alpha : complex) :
  terminates (aqueeq_binomial x y alpha tol max_terms boundary_threshold
                return_info).
Proof.
  unfold aqueeq_binomial.
  pose proof (real_odd_root_terminates x alpha return_info) as Hroot.
  destruct (real_odd_root x alpha return_info) as [[r | ] | e | ];
    try contradiction;
    repeat first [ apply preconditioning_ends | ends_step ].
Qed.


End Stages.
End Ends.

(** ** The budget of terms and the end of the series *)

Section Budget.
Context {libm : Libm}.

(** In the near-boundary band the budget is tripled, for a budget that is
    not negative. *)
Lemma effective_max_band (max_terms : Z) (abs_z boundary_threshold : float) :
  0 <= max_terms ->
  effective_max max_terms abs_z boundary_threshold =
    if PyFloat.lt 0.75 abs_z && PyFloat.le abs_z boundary_threshold
    then 3 * max_terms else max_terms.
Proof.
  intros H. unfold effective_max.
  destruct (_ && _); lia.
Qed.

(** The counter of the loop only grows, and passes the budget by one at
    most: by exactly one when the loop is exhausted. *)
Lemma summation_counter (alpha z : complex) (tol : float)
    (effective_max : Z) (st final : complex * complex * Z) :
  summation alpha z tol effective_max st final ->
  snd st <= snd final <= Z.max (snd st) (effective_max + 1).
Proof.
  induction 1; simpl in *; lia.
Qed.

Variables (tol : float) (max_terms : Z) (boundary_threshold : float)
          (return_info : bool).

Local Abbreviation evaluate x y alpha :=
  (aqueeq_binomial x y alpha tol max_terms boundary_threshold return_info).

(** A ratio within the threshold goes to the series stage. *)
Lemma series_eval (x y alpha A z : complex) (abs_z : float) :
  edge_case x y alpha = false ->
  preconditioned x y A z ->
  PyComplex.abs z = Ok abs_z ->
  PyFloat.gt abs_z boundary_threshold = false ->
  evaluate x y alpha =
    series_stage alpha A z tol max_terms boundary_threshold return_info.
Proof.
  intros He Hp Hz Hgt.
  rewrite (preconditioned_eval _ _ _ _ x y alpha A z He Hp).
  unfold boundary_policy. now rewrite Hz, bind_call_ok, Hgt.
Qed.

End Budget.

(** ** How the series loop ends *)

Section LoopEnds.
Context {libm : Libm}.
Variables (alpha z : complex) (tol : float) (effective_max : Z).

(** The loop computes the magnitudes of the state it is left with, unless
    it does not run at all. *)
Lemma summation_magnitudes (st final : complex * complex * Z) :
  summation alpha z tol effective_max st final ->
  has_magnitudes st \/ snd st <= effective_max ->
  has_magnitudes final.
Proof.
  induction 1 as [Sk term k Hk | Sk term Sk' term' k Hk Hit
                 | Sk term Sk' term' k final Hk Hit Hrest IH];
    simpl; intros Hst.
  - destruct Hst as [Hst | Hst]; [assumption | lia].
  - inversion Hit; subst; unfold has_magnitudes; simpl; eauto.
  - apply IH. left.
    inversion Hit; subst; unfold has_magnitudes; simpl; eauto.
Qed.

(** A loop that ends within the budget was stopped by one of the two
    tests. *)
Lemma summation_stop_reason (st final : complex * complex * Z) :
  summation alpha z tol effective_max st final ->
  snd final <= effective_max ->
  exists abs_term abs_S,
    PyComplex.abs (snd (fst final)) = Ok abs_term
    /\ PyComplex.abs (fst (fst final)) = Ok abs_S
    /\ (under_floor abs_term abs_S = true
        \/ under_tolerance tol abs_term abs_S = true).
Proof.
  induction 1 as [Sk term k Hk | Sk term Sk' term' k Hk Hit
                 | Sk term Sk' term' k final Hk Hit Hrest IH];
    simpl; intros Hend; [lia | | auto].
  inversion Hit; subst; simpl; eauto 6.
Qed.

(** X7.  The state [(S, term, k)] the loop is left with: the counter is
    at least 1 and passes the budget by one at most; when it has passed
    the budget it is exactly [max(1, effective_max + 1)]; when it has
    not, one of the two tests stopped the loop, and it holds of the
    magnitudes of the final state: [|term| < 1e-16 * |S|] or
    [|term| < 1e-14], or [|term| < tol * |S|]. *)
Theorem loop_end (Sk term : complex) (k : Z) :
  series_loop (series_fuel effective_max) alpha z tol effective_max
    PyComplex.one PyComplex.one 1 = Ok (Sk, term, k) ->
  1 <= k <= Z.max 1 (effective_max + 1)
  /\ (effective_max < k -> k = Z.max 1 (effective_max + 1))
  /\ (k <= effective_max ->
      exists abs_term abs_S,
        PyComplex.abs term = Ok abs_term
        /\ PyComplex.abs Sk = Ok abs_S
        /\ (under_floor abs_term abs_S = true
            \/ under_tolerance tol abs_term abs_S = true)).
Proof.
  intros Hloop.
  pose proof (series_loop_sound _ _ _ _ _ _ _ _ _ Hloop) as Hsum.
  pose proof (summation_counter _ _ _ _ _ _ Hsum) as Hk. simpl in Hk.
  split; [exact Hk | split; [lia | ]].
  intros Hend. exact (summation_stop_reason _ _ Hsum Hend).
Qed.

End LoopEnds.

(** ** The series stage, from the end of the loop *)

Section SeriesStage.
Context {libm : Libm}.
Variables (tol : float) (max_terms : Z) (boundary_threshold : float).
Local Open Scope float_scope.

(** Lines 112-132, given the state the loop is left with and its
    magnitudes. *)
Lemma series_stage_eval (alpha A z : complex) (return_info : bool)
    (abs_z : float) (Sk term : complex) (k : Z) (abs_term abs_S : float) :
  let budget := effective_max max_terms abs_z boundary_threshold in
  PyComplex.abs z = Ok abs_z ->
  series_loop (series_fuel budget) alpha z tol budget
    PyComplex.one PyComplex.one 1 = Ok (Sk, term, k) ->
  PyComplex.abs term = Ok abs_term ->
  PyComplex.abs Sk = Ok abs_S ->
  series_stage alpha A z tol max_terms boundary_threshold return_info
  = (if (budget <=? k)%Z && PyFloat.ge abs_term (tol * abs_S)
     then [NoConvergence budget abs_z abs_term] else [],
     deliver return_info
       (lift (A_power <- log_exp alpha A ;;
              Ok (PyComplex.prod A_power Sk,
                  Info.mk k false (Some z) None (Some abs_term)
                    (Some (PyFloat.lt abs_term (tol * abs_S)))
                    (Some A)))%result)).
Proof.
  intros budget Hz Hloop Hterm HS.
  unfold series_stage. rewrite Hz, bind_call_ok.
  fold budget. rewrite Hloop, bind_call_ok.
  destruct (budget <=? k)%Z; simpl andb.
  - rewrite Hterm, HS, !bind_call_ok.
    destruct (PyFloat.ge abs_term (tol * abs_S)).
    + rewrite ?bind_call_ok, bind_warn.
      destruct (log_exp alpha A) as [A_power | e | ], return_info;
        simpl; rewrite ?Hterm, ?HS; reflexivity.
    + rewrite bind_ret.
      destruct (log_exp alpha A) as [A_power | e | ], return_info;
        simpl; rewrite ?Hterm, ?HS; reflexivity.
  - rewrite bind_ret.
    destruct (log_exp alpha A) as [A_power | e | ], return_info;
      simpl; rewrite ?Hterm, ?HS; reflexivity.
Qed.

End SeriesStage.

(** ** Every call takes one of the forms *)

Section Walk.
Context {libm : Libm}.
Variables (x y alpha : complex) (tol : float) (max_terms : Z)
          (boundary_threshold : float).

Local Abbreviation takes_shape :=
  (takes_shape x y alpha tol max_terms boundary_threshold).
Local Abbreviation shape :=
  (shape x y alpha tol max_terms boundary_threshold).

Lemma raise_takes_shape (run : bool -> M returned) (e : error) :
  (forall ri, run ri = ([], Exception e)) -> takes_shape run.
Proof.
  intros H. exists [], (Exception e). split; [constructor | exact H].
Qed.

Lemma series_stage_shape (A z : complex) (abs_z : float) :
  A = x \/ A = y ->
  PyComplex.abs z = Ok abs_z ->
  PyFloat.gt abs_z boundary_threshold = false ->
  takes_shape (series_stage alpha A z tol max_terms boundary_threshold).
Proof.
  intros HA Hz Hgt.
  set (budget := effective_max max_terms abs_z boundary_threshold).
  destruct (series_loop (series_fuel budget) alpha z tol budget
              PyComplex.one PyComplex.one 1)
    as [[[Sk term] k] | e | ] eqn:Hloop.
  - pose proof (series_loop_sound _ _ _ _ _ _ _ _ _ Hloop) as Hsum.
    pose proof (summation_counter _ _ _ _ _ _ Hsum) as Hk. simpl in Hk.
    assert (Hcases :
      has_magnitudes (Sk, term, k)
      \/ exists e, forall ri,
           series_stage alpha A z tol max_terms boundary_threshold ri
           = ([], Exception (Library e))).
    { destruct (Z_le_gt_dec 1 budget) as [Hb | Hb].
      - left. apply (summation_magnitudes _ _ _ _ _ _ Hsum). now right.
      - assert (Hfinal : (Sk, term, k) = (PyComplex.one, PyComplex.one, 1)).
        { inversion Hsum; subst; trivial; lia. }
        injection Hfinal as -> -> ->.
        destruct (PyComplex.abs PyComplex.one) as [a | e | ] eqn:Hone.
        + left. exists a, a. simpl. auto.
        + right. exists e. intros ri. unfold series_stage.
          rewrite Hz, bind_call_ok. fold budget.
          rewrite Hloop, bind_call_ok.
          assert (Hle : (budget <=? 1) = true) by (apply Z.leb_le; lia).
          rewrite Hle, Hone. reflexivity.
        + exfalso. exact (Termination.abs_terminates _ Hone). }
    destruct Hcases as [(abs_term & abs_S & Hterm & HS) | [e He]];
      [ | exact (raise_takes_shape _ _ He)].
    simpl in Hterm, HS.
    eexists _, _. split.
    + exact (shape_series x y alpha tol max_terms boundary_threshold
               A z abs_z Sk term k abs_term abs_S
               HA Hz Hgt Hloop Hterm HS Hk).
    + intros ri.
      apply (series_stage_eval tol max_terms boundary_threshold
               alpha A z ri abs_z Sk term k abs_term abs_S
               Hz Hloop Hterm HS).
  - apply (raise_takes_shape _ (Library e)). intros ri.
    unfold series_stage. rewrite Hz, bind_call_ok. fold budget.
    now rewrite Hloop.
  - exfalso. revert Hloop.
    apply Termination.series_loop_terminates.
    unfold series_fuel. simpl. lia.
Qed.

Lemma fallback_takes_shape (w : advisory) (z : option complex) :
  shape [w]
    (lift (result <- log_exp alpha (PyComplex.sum x y) ;;
           Ok (result, Info.terminal true z))%result) ->
  takes_shape
    (fun ri =>
       (warn w ;;;
        result <- call (log_exp alpha (PyComplex.sum x y)) ;;
        ret (with_info ri result (Info.terminal true z)))%M).
Proof.
  intros Hw. eexists [w], _. split.
  - exact Hw.
  - intros ri. rewrite bind_warn.
    destruct (log_exp alpha (PyComplex.sum x y)); reflexivity.
Qed.

Lemma boundary_policy_shape (A z : complex) :
  A = x \/ A = y ->
  takes_shape
    (boundary_policy x y alpha A z tol max_terms boundary_threshold).
Proof.
  intros HA. unfold boundary_policy.
  destruct (PyComplex.abs z) as [abs_z | e | ] eqn:Hz.
  - destruct (PyFloat.gt abs_z boundary_threshold) eqn:Hgt.
    + destruct (fallback_takes_shape
                  (BoundaryFallback abs_z boundary_threshold) (Some z))
        as (ws & r & Hs & Hrun); [now apply shape_boundary | ].
      exists ws, r. split; [assumption | ]. intros ri.
      rewrite !bind_call_ok, Hgt, ?bind_call_ok. apply Hrun.
    + destruct (series_stage_shape A z abs_z HA Hz Hgt)
        as (ws & r & Hs & Hrun).
      exists ws, r. split; [assumption | ]. intros ri.
      rewrite bind_call_ok, Hgt. apply Hrun.
  - apply (raise_takes_shape _ (Library e)). reflexivity.
  - exfalso. exact (Termination.abs_terminates _ Hz).
Qed.

Lemma preconditioning_shape :
  takes_shape (preconditioning x y alpha tol max_terms boundary_threshold).
Proof.
  unfold preconditioning.
  destruct (PyComplex.abs x) as [ax | e | ] eqn:Hx;
    [ | apply (raise_takes_shape _ (Library e)); reflexivity
      | exfalso; exact (Termination.abs_terminates _ Hx)].
  destruct (PyComplex.abs y) as [ay | e | ] eqn:Hy;
    [ | apply (raise_takes_shape _ (Library e)); reflexivity
      | exfalso; exact (Termination.abs_terminates _ Hy)].
  destruct (PyFloat.lt ax ay) eqn:Hlt.
  - destruct (PyComplex.quot x y) as [z | e | ] eqn:Hq;
      [ | apply (raise_takes_shape _ (Library e)); intros ri;
          now rewrite !bind_call_ok, Hlt
        | exfalso; exact (Termination.quot_terminates _ _ Hq)].
    destruct (boundary_policy_shape y z) as (ws & r & Hs & Hrun); [auto | ].
    exists ws, r. split; [assumption | ]. intros ri.
    rewrite !bind_call_ok, Hlt, ?bind_call_ok. apply Hrun.
  - destruct (PyFloat.gt ax ay) eqn:Hgt.
    + destruct (PyComplex.quot y x) as [z | e | ] eqn:Hq;
        [ | apply (raise_takes_shape _ (Library e)); intros ri;
            now rewrite !bind_call_ok, Hlt, Hgt
          | exfalso; exact (Termination.quot_terminates _ _ Hq)].
      destruct (boundary_policy_shape x z) as (ws & r & Hs & Hrun);
        [auto | ].
      exists ws, r. split; [assumption | ]. intros ri.
      rewrite !bind_call_ok, Hlt, Hgt, ?bind_call_ok. apply Hrun.
    + destruct (fallback_takes_shape EqualMagnitude None)
        as (ws & r & Hs & Hrun); [apply shape_equal | ].
      exists ws, r. split; [assumption | ]. intros ri.
      rewrite !bind_call_ok, Hlt, Hgt. apply Hrun.
Qed.

(** A power of one operand, the other being zero. *)
Lemma power_takes_shape (w : complex) :
  takes_shape
    (fun ri =>
       (result <- call (complex_pow w alpha) ;;
        ret (with_info ri result
               (Info.terminal false (Some PyComplex.zero))))%M).
Proof.
  destruct (complex_pow w alpha) as [v | e].
  - eexists [], _. split; [apply shape_edge | intros ri; reflexivity].
  - apply (raise_takes_shape _ (Library e)). reflexivity.
Qed.

(** The [try] block returns the real root, or falls through, or raises;
    which of them does not depend on [return_info]. *)
Lemma real_odd_root_cases :
  (exists v i,
      Info.terms_used i = 0 /\ Info.base i = None
      /\ Info.converged i = None /\ Info.last_term_abs i = None
      /\ forall ri, real_odd_root x alpha ri = Ok (Some (with_info ri v i)))
  \/ (forall ri, real_odd_root x alpha ri = Ok None)
  \/ (exists e, forall ri, real_odd_root x alpha ri = Raise e).
Proof.
  unfold real_odd_root.
  destruct (Fraction.of_float (real alpha)) as [f | e | ] eqn:Hf; simpl.
  - pose proof (Termination.limit_denominator_terminates f 1000) as Hl.
    destruct (Fraction.limit_denominator f 1000) as [frac | e | ];
      simpl; [ | right; right; eauto | contradiction].
    destruct (Fraction.denominator frac mod 2 =? 1);
      [ | right; left; reflexivity].
    destruct (float_pow (PrimFloat.abs (real x)) (real alpha))
      as [abs_root | e]; simpl; [ | right; right; eauto].
    left.
    exists (PyComplex.of_float (- abs_root)%float),
      (Info.mk 0 false (Some PyComplex.zero)
         (Some "real odd root"%string) None None None).
    repeat split.
  - right; right; eauto.
  - exfalso. unfold Fraction.of_float, PyFloat.as_integer_ratio in Hf.
    destruct (Prim2SF (real alpha)); try discriminate.
    destruct (0 <=? e); discriminate.
Qed.

Lemma aqueeq_binomial_shape :
  takes_shape
    (aqueeq_binomial x y alpha tol max_terms boundary_threshold).
Proof.
  unfold aqueeq_binomial.
  destruct (PyComplex.eq x PyComplex.zero && PyComplex.ne y PyComplex.zero);
    [apply power_takes_shape | ].
  destruct (PyComplex.eq y PyComplex.zero && PyComplex.ne x PyComplex.zero).
  { destruct (_ && _ && _); [ | apply power_takes_shape].
    destruct real_odd_root_cases
      as [(v & i & Hi) | [Hnone | [e He]]].
    - destruct i as [k fb z note lt cv b]. simpl in Hi.
      destruct Hi as (-> & -> & -> & -> & Hi).
      eexists [], _. split; [apply shape_edge | ].
      intros ri. rewrite Hi. reflexivity.
    - destruct (power_takes_shape x) as (ws & r & Hs & Hrun).
      exists ws, r. split; [assumption | ]. intros ri.
      rewrite Hnone. apply Hrun.
    - destruct (caught e) eqn:Hc.
      + destruct (power_takes_shape x) as (ws & r & Hs & Hrun).
        exists ws, r. split; [assumption | ]. intros ri.
        rewrite He, Hc. apply Hrun.
      + apply (raise_takes_shape _ (Library e)). intros ri.
        now rewrite He, Hc. }
  destruct (_ && _ && _).
  { eexists [], _. split; [apply shape_edge | intros ri; reflexivity]. }
  destruct (PyComplex.eq (PyComplex.sum x y) PyComplex.zero).
  { destruct (_ && _).
    - eexists [], _. split; [apply shape_edge | intros ri; reflexivity].
    - apply (raise_takes_shape _ DomainError). reflexivity. }
  apply preconditioning_shape.
Qed.

Lemma lift_log_exp_ends {A : Type} (w : complex)
    (k : complex -> result A) :
  (forall v, k v <> OutOfFuel) ->
  lift (v <- log_exp alpha w ;; k v)%result <> NoFuel.
Proof.
  intros Hk. pose proof (log_exp_terminates alpha w) as H.
  destruct (log_exp alpha w) as [v | e | ]; simpl;
    [ | discriminate | contradiction].
  specialize (Hk v). destruct (k v); simpl; congruence.
Qed.

Lemma shape_ends (ws : list advisory) (r : outcome (complex * Info.t)) :
  shape ws r -> r <> NoFuel.
Proof.
  destruct 1; try discriminate; apply lift_log_exp_ends; discriminate.
Qed.


End Walk.

(** ** The non-convergence warning, and how a call can fail *)

Section Advisories.
Context {libm : Libm}.
Variables (tol : float) (max_terms : Z) (boundary_threshold : float)
          (return_info : bool).

Local Abbreviation evaluate x y alpha :=
  (aqueeq_binomial x y alpha tol max_terms boundary_threshold return_info).


End Advisories.

(** ** Warnings and diagnostics of every call *)

Section Universal.
Context {libm : Libm}.
Variables (tol : float) (max_terms : Z) (boundary_threshold : float).

Local Abbreviation evaluate x y alpha ri :=
  (aqueeq_binomial x y alpha tol max_terms boundary_threshold ri).

(** X1.  [return_info] changes nothing but the shape of what is
    returned: the call with [return_info=True] issues the warnings of the
    call with [return_info=False], and either both raise the same
    exception, or both return the same value, the first with a
    dictionary and the second without. *)
Theorem return_info_is_passive (x y alpha : complex) :
  let full := evaluate x y alpha true in
  let bare := evaluate x y alpha false in
  fst full = fst bare
  /\ match snd full, snd bare with
     | Value (v, Some _), Value (v', None) => v = v'
     | Exception e, Exception e' => e = e'
     | _, _ => False
     end.
Proof.
  destruct (aqueeq_binomial_shape x y alpha tol max_terms
              boundary_threshold) as (ws & r & Hs & Hrun).
  simpl. rewrite (Hrun true), (Hrun false). simpl. split; trivial.
  pose proof (shape_ends _ _ _ _ _ _ _ _ Hs) as Hr.
  destruct r as [[v i] | e | ]; simpl; trivial. contradiction.
Qed.

(** X2.  A call issues one warning at most, and none when an edge case
    resolves it. *)
Theorem one_warning_at_most (x y alpha : complex) (return_info : bool) :
  let out := evaluate x y alpha return_info in
  (List.length (fst out) <= 1)%nat
  /\ (edge_case x y alpha = true -> fst out = []).
Proof.
  simpl. split.
  - destruct (aqueeq_binomial_shape x y alpha tol max_terms
                boundary_threshold) as (ws & r & Hs & Hrun).
    rewrite Hrun. simpl.
    destruct Hs; simpl; try lia.
    destruct (_ && _); simpl; lia.
  - unfold edge_case, zero_x, zero_y, cancelling_integer, zero_sum,
      aqueeq_binomial.
    assert (Hpow : forall w,
      fst (result <- call (complex_pow w alpha) ;;
           ret (with_info return_info result
                  (Info.terminal false (Some PyComplex.zero))))%M = []).
    { intros w. now destruct (complex_pow w alpha). }
    destruct (PyComplex.eq x PyComplex.zero
              && PyComplex.ne y PyComplex.zero); [intros _; apply Hpow | ].
    destruct (PyComplex.eq y PyComplex.zero
              && PyComplex.ne x PyComplex.zero).
    { intros _. destruct (_ && _ && _); [ | apply Hpow].
      destruct (real_odd_root x alpha return_info) as [[r | ] | e | ];
        trivial. destruct (caught e); trivial. }
    destruct (_ && _ && _); [reflexivity | ].
    destruct (PyComplex.eq (PyComplex.sum x y) PyComplex.zero);
      [ | discriminate].
    now destruct (_ && _).
Qed.

(** X3.  The diagnostics a call returns: [terms_used] lies between 0 and
    [max(1, 3 * max_terms + 1)]; it is 0 exactly when there is no
    ["base"], that is when the series was not run, and in particular
    whenever [used_fallback] is set.  When there is a ["base"] it is [x]
    or [y], ["z"] is a ratio whose magnitude is not above the threshold,
    and [terms_used] is at most [max(1, effective_max + 1)]. *)
Theorem terms_used_range (x y alpha v : complex) (i : Info.t) :
  snd (evaluate x y alpha true) = Value (v, Some i) ->
  0 <= Info.terms_used i <= Z.max 1 (3 * max_terms + 1)
  /\ (Info.terms_used i = 0 <-> Info.base i = None)
  /\ (Info.used_fallback i = true -> Info.terms_used i = 0)
  /\ (forall A, Info.base i = Some A ->
        (A = x \/ A = y)
        /\ exists z abs_z,
             Info.z i = Some z /\ PyComplex.abs z = Ok abs_z
             /\ PyFloat.gt abs_z boundary_threshold = false
             /\ Info.terms_used i
                <= Z.max 1 (effective_max max_terms abs_z
                              boundary_threshold + 1)).
Proof.
  destruct (aqueeq_binomial_shape x y alpha tol max_terms
              boundary_threshold) as (ws & r & Hs & Hrun).
  rewrite Hrun. cbn [snd]. intros Hv.
  destruct Hs as [e | v' fb z note | | z abs_z Hz Hgt
                 | A z abs_z Sk term k abs_term abs_S budget HA Hz Hgt
                     Hloop Hterm HS Hk].
  - discriminate.
  - simpl in Hv. injection Hv as <- <-.
    cbn [Info.terms_used Info.base Info.used_fallback Info.z].
    repeat split; intros; try lia; try discriminate; trivial.
  - destruct (log_exp alpha (PyComplex.sum x y)); simpl in Hv;
      try discriminate.
    injection Hv as <- <-. unfold Info.terminal.
    cbn [Info.terms_used Info.base Info.used_fallback Info.z].
    repeat split; intros; try lia; try discriminate; trivial.
  - destruct (log_exp alpha (PyComplex.sum x y)); simpl in Hv;
      try discriminate.
    injection Hv as <- <-. unfold Info.terminal.
    cbn [Info.terms_used Info.base Info.used_fallback Info.z].
    repeat split; intros; try lia; try discriminate; trivial.
  - destruct (log_exp alpha A); simpl in Hv; try discriminate.
    injection Hv as <- <-.
    cbn [Info.terms_used Info.base Info.used_fallback Info.z].
    assert (Hb : budget <= Z.max max_terms (3 * max_terms)).
    { unfold budget, effective_max.
      destruct (PyFloat.lt _ abs_z && _); lia. }
    repeat split; intros; try lia; try discriminate.
    + match goal with H : Some _ = Some _ |- _ => now injection H as <- end.
    + exists z, abs_z. repeat split; trivial. apply Hk.
Qed.

(** X4.  The warning and the diagnostics of a call that returns agree.
    With [converged = True] there was no warning.  The equal-magnitude
    warning comes with [used_fallback = True], [terms_used = 0] and
    [z = None]; the boundary warning with [used_fallback = True],
    [terms_used = 0], the threshold of the call and the magnitude of the
    ["z"] returned; the non-convergence warning with
    [used_fallback = False], [converged = False], a budget that
    [terms_used] has reached, and the [last_term_abs] returned. *)
Theorem warnings_match_diagnostics (x y alpha v : complex) (i : Info.t) :
  let out := evaluate x y alpha true in
  snd out = Value (v, Some i) ->
  (Info.converged i = Some true -> fst out = [])
  /\ match fst out with
     | [] => True
     | [EqualMagnitude] =>
         Info.used_fallback i = true /\ Info.terms_used i = 0
         /\ Info.z i = None
     | [BoundaryFallback abs_z threshold] =>
         Info.used_fallback i = true /\ Info.terms_used i = 0
         /\ threshold = boundary_threshold
         /\ exists z, Info.z i = Some z /\ PyComplex.abs z = Ok abs_z
     | [NoConvergence budget abs_z abs_term] =>
         Info.used_fallback i = false /\ Info.converged i = Some false
         /\ budget <= Info.terms_used i
         /\ Info.last_term_abs i = Some abs_term
     | _ => False
     end.
Proof.
  destruct (aqueeq_binomial_shape x y alpha tol max_terms
              boundary_threshold) as (ws & r & Hs & Hrun).
  cbn zeta. rewrite Hrun. cbn [fst snd]. intros Hv.
  destruct Hs as [e | v' fb z note | | z abs_z Hz Hgt
                 | A z abs_z Sk term k abs_term abs_S budget HA Hz Hgt
                     Hloop Hterm HS Hk].
  - discriminate.
  - auto.
  - destruct (log_exp alpha (PyComplex.sum x y)); simpl in Hv;
      try discriminate.
    injection Hv as <- <-. simpl. repeat split. discriminate.
  - destruct (log_exp alpha (PyComplex.sum x y)); simpl in Hv;
      try discriminate.
    injection Hv as <- <-. simpl. repeat split; [discriminate | eauto].
  - destruct (log_exp alpha A); simpl in Hv; try discriminate.
    injection Hv as <- <-.
    cbn [Info.terms_used Info.used_fallback Info.converged
         Info.last_term_abs].
    destruct (budget <=? k) eqn:Hb; cbn [andb]; [ | auto].
    destruct (PyFloat.ge abs_term (tol * abs_S)) eqn:Hge; [ | auto].
    rewrite (Commute.ge_not_lt _ _ Hge). apply Z.leb_le in Hb.
    repeat split; trivial. discriminate.
Qed.

End Universal.

(** ** The result of the series stage *)

Section SeriesResult.
Context {libm : Libm}.
Variables (tol : float) (max_terms : Z) (boundary_threshold : float)
          (return_info : bool).
Local Open Scope float_scope.

Local Abbreviation evaluate x y alpha :=
  (aqueeq_binomial x y alpha tol max_terms boundary_threshold return_info).

(** X5.  With a budget of one term at least, a call that reaches the
    series returns [exp(alpha * log(A)) * S] for the state [(S, term, k)]
    the loop is left with, and the diagnostics [terms_used = k],
    [last_term_abs = abs(term)], [converged = abs(term) < tol * abs(S)],
    [z] and [base = A]; the two magnitudes are defined.  It warns of the
    missing convergence exactly when [k >= effective_max] and
    [abs(term) >= tol * abs(S)]. *)
Theorem series_result (x y alpha A z : complex) (abs_z : float)
    (Sk term : complex) (k : Z) :
  let budget := effective_max max_terms abs_z boundary_threshold in
  (1 <= max_terms)%Z ->
  edge_case x y alpha = false ->
  preconditioned x y A z ->
  PyComplex.abs z = Ok abs_z ->
  PyFloat.gt abs_z boundary_threshold = false ->
  series_loop (series_fuel budget) alpha z tol budget
    PyComplex.one PyComplex.one 1 = Ok (Sk, term, k) ->
  exists abs_term abs_S,
    PyComplex.abs term = Ok abs_term
    /\ PyComplex.abs Sk = Ok abs_S
    /\ evaluate x y alpha
       = (if (budget <=? k)%Z && PyFloat.ge abs_term (tol * abs_S)
          then [NoConvergence budget abs_z abs_term] else [],
          lift (l <- cmath_log A ;;
                A_power <- cmath_exp (PyComplex.prod alpha l) ;;
                Ok (PyComplex.prod A_power Sk,
                    if return_info then
                      Some (Info.mk k false (Some z) None (Some abs_term)
                              (Some (PyFloat.lt abs_term (tol * abs_S)))
                              (Some A))
                    else None))%result).
Proof.
  intros budget Hmax He Hp Hz Hgt Hloop.
  pose proof (series_loop_sound _ _ _ _ _ _ _ _ _ Hloop) as Hsum.
  assert (Hb : (1 <= budget)%Z).
  { unfold budget, effective_max. destruct (PyFloat.lt _ abs_z && _); lia. }
  destruct (summation_magnitudes _ _ _ _ _ _ Hsum (or_intror Hb))
    as (abs_term & abs_S & Hterm & HS).
  exists abs_term, abs_S. split; [exact Hterm | split; [exact HS | ]].
  rewrite (series_eval tol max_terms boundary_threshold return_info
             x y alpha A z abs_z He Hp Hz Hgt).
  rewrite (series_stage_eval tol max_terms boundary_threshold alpha A z
             return_info abs_z Sk term k abs_term abs_S Hz Hloop Hterm HS).
  fold budget. f_equal.
  rewrite <- lift_log_exp.
  destruct (log_exp alpha A); reflexivity.
Qed.

(** X6.  With [max_terms <= 0] the body of the loop is never run: a call
    that reaches the series returns [exp(alpha * log(A)) * (1 + 0j)] and
    reports [terms_used = 1]; it warns of the missing convergence when
    [abs(1 + 0j) >= tol * abs(1 + 0j)]. *)
Theorem empty_budget (x y alpha A z : complex) (abs_z abs_one : float) :
  let budget := effective_max max_terms abs_z boundary_threshold in
  (max_terms <= 0)%Z ->
  edge_case x y alpha = false ->
  preconditioned x y A z ->
  PyComplex.abs z = Ok abs_z ->
  PyFloat.gt abs_z boundary_threshold = false ->
  PyComplex.abs PyComplex.one = Ok abs_one ->
  evaluate x y alpha
  = (if PyFloat.ge abs_one (tol * abs_one)
     then [NoConvergence budget abs_z abs_one] else [],
     lift (l <- cmath_log A ;;
           A_power <- cmath_exp (PyComplex.prod alpha l) ;;
           Ok (PyComplex.prod A_power PyComplex.one,
               if return_info then
                 Some (Info.mk 1 false (Some z) None (Some abs_one)
                         (Some (PyFloat.lt abs_one (tol * abs_one)))
                         (Some A))
               else None))%result).
Proof.
  intros budget Hmax He Hp Hz Hgt Hone.
  assert (Hb : (budget <= 0)%Z).
  { unfold budget, effective_max. destruct (PyFloat.lt _ abs_z && _); lia. }
  assert (Hloop : series_loop (series_fuel budget) alpha z tol budget
                    PyComplex.one PyComplex.one 1
                  = Ok (PyComplex.one, PyComplex.one, 1%Z)).
  { unfold series_fuel. cbn [series_loop].
    assert (Hk : (1 <=? budget)%Z = false) by (apply Z.leb_gt; lia).
    now rewrite Hk. }
  rewrite (series_eval tol max_terms boundary_threshold return_info
             x y alpha A z abs_z He Hp Hz Hgt).
  rewrite (series_stage_eval tol max_terms boundary_threshold alpha A z
             return_info abs_z _ _ _ abs_one abs_one Hz Hloop Hone Hone).
  fold budget.
  assert (Hk : (budget <=? 1)%Z = true) by (apply Z.leb_le; lia).
  rewrite Hk. cbn [andb]. f_equal.
  rewrite <- lift_log_exp.
  destruct (log_exp alpha A); reflexivity.
Qed.

End SeriesResult.

(** ** The zero second operand: lines 28-45 *)

Section ZeroY.
Context {libm : Libm}.
Variables (tol : float) (max_terms : Z) (boundary_threshold : float)
          (return_info : bool).
Local Open Scope float_scope.

Local Abbreviation evaluate x y alpha :=
  (aqueeq_binomial x y alpha tol max_terms boundary_threshold return_info).

(** [x ** alpha], with the diagnostics of lines 42-45 and no warning. *)
Local Abbreviation power x alpha :=
  ([] : list advisory,
   lift (result <- complex_pow x alpha ;;
         Ok (with_info return_info result
               (Info.mk 0 false (Some PyComplex.zero)
                  None None None None)))%result).

Lemma normal_power_eval (x alpha : complex) :
  (result <- call (complex_pow x alpha) ;;
   ret (with_info return_info result
          (Info.terminal false (Some PyComplex.zero))))%M
  = power x alpha.
Proof. destruct (complex_pow x alpha); reflexivity. Qed.

(** The call with [y == 0] and [x != 0], in terms of the [try] block. *)
Lemma zero_y_eval (x y alpha : complex) :
  PyComplex.eq y PyComplex.zero = true ->
  PyComplex.ne x PyComplex.zero = true ->
  evaluate x y alpha =
    if is_real x && is_real alpha && PyFloat.lt (real x) 0 then
      match real_odd_root x alpha return_info with
      | Ok (Some r) => ret r
      | Ok None => power x alpha
      | Raise e => if caught e then power x alpha else call (Raise e)
      | OutOfFuel => call OutOfFuel
      end
    else power x alpha.
Proof.
  intros Hy Hx. unfold aqueeq_binomial, is_real.
  assert (Hy' : PyComplex.ne y PyComplex.zero = false).
  { unfold PyComplex.ne. now rewrite Hy. }
  rewrite Hy', Hy, Hx, andb_false_r. cbn [andb].
  now rewrite normal_power_eval.
Qed.

Lemma negative_real_ne_zero (x : complex) :
  PyFloat.lt (real x) 0 = true -> PyComplex.ne x PyComplex.zero = true.
Proof.
  intros H. unfold PyComplex.ne, PyComplex.eq, PyComplex.zero. simpl.
  now rewrite (FloatOrder.lt_zero_ne _ H).
Qed.

(** X8.  With [y == 0] and [x != 0], unless [x] is real and negative and
    [alpha] real, the call is the complex power [x ** alpha], with
    [terms_used = 0], [used_fallback = False] and [z = 0j] in the
    diagnostics, and no warning. *)
Theorem zero_y_power (x y alpha : complex) :
  PyComplex.eq y PyComplex.zero = true ->
  PyComplex.ne x PyComplex.zero = true ->
  is_real x && is_real alpha && PyFloat.lt (real x) 0 = false ->
  evaluate x y alpha
  = ([], lift (result <- complex_pow x alpha ;;
               Ok (with_info return_info result
                     (Info.mk 0 false (Some PyComplex.zero)
                        None None None None)))%result).
Proof.
  intros Hy Hx Hc. now rewrite (zero_y_eval x y alpha Hy Hx), Hc.
Qed.

(** X9.  With [y == 0], [x] real and negative and [alpha] real, an even
    denominator in [Fraction(alpha.real).limit_denominator(1000)] leaves
    the call to the complex power [x ** alpha]: no real root is taken. *)
Theorem even_denominator_power (x y alpha : complex) (f frac : Fraction.t) :
  PyComplex.eq y PyComplex.zero = true ->
  is_real x = true ->
  PyFloat.lt (real x) 0 = true ->
  is_real alpha = true ->
  Fraction.of_float (real alpha) = Ok f ->
  Fraction.limit_denominator f 1000 = Ok frac ->
  Z.even (Fraction.denominator frac) = true ->
  evaluate x y alpha
  = ([], lift (result <- complex_pow x alpha ;;
               Ok (with_info return_info result
                     (Info.mk 0 false (Some PyComplex.zero)
                        None None None None)))%result).
Proof.
  intros Hy Hx Hneg Ha Hf Hfrac Heven.
  rewrite (zero_y_eval x y alpha Hy (negative_real_ne_zero x Hneg)).
  rewrite Hx, Ha, Hneg. cbn [andb].
  unfold real_odd_root. rewrite Hf. cbn [rbind]. rewrite Hfrac.
  cbn [rbind]. now rewrite Zmod_even, Heven.
Qed.

(** X10.  With [y == 0], [x] real and negative and [alpha] a real
    integer, even or odd, the call takes the real-root branch, since the
    denominator of an integer is 1, and ends as the float power
    [abs(x.real) ** alpha.real] does: it returns
    [complex(-(abs(x.real) ** alpha.real))] when the power returns, and
    raises the [OverflowError] of a power that overflows; a [ValueError]
    or a [ZeroDivisionError] of the power would leave the call to the
    complex power [x ** alpha]. *)
Theorem integer_exponent_root (x y alpha : complex) :
  PyComplex.eq y PyComplex.zero = true ->
  is_real x = true ->
  PyFloat.lt (real x) 0 = true ->
  is_real alpha = true ->
  PyFloat.is_integer (real alpha) = true ->
  evaluate x y alpha
  = match float_pow (PrimFloat.abs (real x)) (real alpha) with
    | Returns abs_root =>
        ([], Value (with_info return_info (Complex (- abs_root) 0)
                      (Info.mk 0 false (Some PyComplex.zero)
                         (Some "real odd root"%string) None None None)))
    | Raises OverflowError => ([], Exception (Library OverflowError))
    | Raises _ =>
        ([], lift (result <- complex_pow x alpha ;;
                   Ok (with_info return_info result
                         (Info.mk 0 false (Some PyComplex.zero)
                            None None None None)))%result)
    end.
Proof.
  intros Hy Hx Hneg Ha Hint.
  rewrite (zero_y_eval x y alpha Hy (negative_real_ne_zero x Hneg)).
  rewrite Hx, Ha, Hneg. cbn [andb].
  destruct (as_integer_ratio_integer _ Hint) as [n Hn].
  unfold real_odd_root, Fraction.of_float. rewrite Hn. cbn [rbind fst snd].
  unfold Fraction.limit_denominator.
  cbn [Fraction.denominator Z.ltb Z.leb Z.compare Pos.compare
       Pos.compare_cont rbind Z.modulo Z.div_eucl Z.pos_div_eucl Z.eqb].
  destruct (float_pow (PrimFloat.abs (real x)) (real alpha))
    as [abs_root | [ | | ]]; reflexivity.
Qed.

(** X11.  With [y == 0], [x] real and negative and [alpha] real and
    infinite, [Fraction(alpha.real)] raises [OverflowError], which the
    [except] clause does not catch: the call raises it. *)
Theorem infinite_exponent_overflows (x y alpha : complex) :
  PyComplex.eq y PyComplex.zero = true ->
  is_real x = true ->
  PyFloat.lt (real x) 0 = true ->
  is_real alpha = true ->
  PyFloat.isinf (real alpha) = true ->
  evaluate x y alpha = ([], Exception (Library OverflowError)).
Proof.
  intros Hy Hx Hneg Ha Hinf.
  rewrite (zero_y_eval x y alpha Hy (negative_real_ne_zero x Hneg)).
  rewrite Hx, Ha, Hneg. cbn [andb].
  unfold real_odd_root, Fraction.of_float, PyFloat.as_integer_ratio.
  unfold PyFloat.isinf in Hinf.
  destruct (Prim2SF (real alpha)); try discriminate. reflexivity.
Qed.

(** X12.  With [y == 0], [x] real and negative and [alpha.real] NaN with
    [alpha.imag == 0], [Fraction(alpha.real)] raises [ValueError], which
    the [except] clause catches: the call is the complex power
    [x ** alpha]. *)
Theorem nan_exponent_power (x y alpha : complex) :
  PyComplex.eq y PyComplex.zero = true ->
  is_real x = true ->
  PyFloat.lt (real x) 0 = true ->
  is_real alpha = true ->
  isnan (real alpha) = true ->
  evaluate x y alpha
  = ([], lift (result <- complex_pow x alpha ;;
               Ok (with_info return_info result
                     (Info.mk 0 false (Some PyComplex.zero)
                        None None None None)))%result).
Proof.
  intros Hy Hx Hneg Ha Hnan.
  rewrite (zero_y_eval x y alpha Hy (negative_real_ne_zero x Hneg)).
  rewrite Hx, Ha, Hneg. cbn [andb].
  unfold real_odd_root, Fraction.of_float, PyFloat.as_integer_ratio.
  unfold isnan in Hnan.
  destruct (Prim2SF (real alpha)); try discriminate. reflexivity.
Qed.

End ZeroY.

(** ** The operands exchanged *)

Section Symmetry.
Context {libm : Libm}.
Variables (tol : float) (max_terms : Z) (boundary_threshold : float)
          (return_info : bool).

Local Abbreviation evaluate x y alpha :=
  (aqueeq_binomial x y alpha tol max_terms boundary_threshold return_info).




End Symmetry.

(** ** An operand with a NaN component *)

Section NaNOperand.
Context {libm : Libm}.
Variables (tol : float) (max_terms : Z) (boundary_threshold : float)
          (return_info : bool).

Local Abbreviation evaluate x y alpha :=
  (aqueeq_binomial x y alpha tol max_terms boundary_threshold return_info).

Lemma nan_component_eq (x w : complex) :
  isnan (real x) || isnan (imag x) = true -> PyComplex.eq x w = false.
Proof.
  intros H. unfold PyComplex.eq. apply orb_true_iff in H.
  destruct H as [H | H]; rewrite (NaN.nan_eq _ _ H);
    [reflexivity | apply andb_false_r].
Qed.

Lemma nan_component_sum (x y : complex) :
  isnan (real x) || isnan (imag x) = true ->
  isnan (real (PyComplex.sum x y)) || isnan (imag (PyComplex.sum x y))
  = true.
Proof.
  intros H. apply orb_true_iff in H. apply orb_true_iff. simpl.
  destruct H as [H | H]; [left | right]; now apply NaN.nan_add.
Qed.

(** [abs] of a complex with a NaN component and no infinite one. *)
Lemma nan_component_abs (x : complex) :
  isnan (real x) || isnan (imag x) = true ->
  PyFloat.isinf (real x) || PyFloat.isinf (imag x) = false ->
  PyComplex.abs x = Ok nan.
Proof.
  intros H Hinf. apply orb_false_iff in Hinf. destruct Hinf as [Hr Hi].
  unfold PyComplex.abs. rewrite Hr, Hi.
  apply orb_true_iff in H.
  destruct H as [H | H]; rewrite (NaN.nan_not_finite _ H);
    rewrite ?andb_false_r; reflexivity.
Qed.

(** X14.  With a first operand [x] that is not zero and has no NaN
    component, whose magnitude does not overflow, a second operand [y]
    with a NaN component and no infinite one passes every edge case and
    is neither smaller nor larger than [x]: the call warns of equal
    magnitudes and returns [cmath.exp(alpha * cmath.log(x + y))], with
    [used_fallback = True].  ([abs(x)] is computed first, so that
    [abs(y)] finds the [errno] it has left.) *)
Theorem nan_operand_equal_magnitude (x y alpha : complex) (ax : float) :
  isnan (real x) || isnan (imag x) = false ->
  PyComplex.ne x PyComplex.zero = true ->
  PyComplex.abs x = Ok ax ->
  isnan (real y) || isnan (imag y) = true ->
  PyFloat.isinf (real y) || PyFloat.isinf (imag y) = false ->
  let out := evaluate x y alpha in
  fst out = [EqualMagnitude]
  /\ snd out = lift
       (l <- cmath_log (PyComplex.sum x y) ;;
        result <- cmath_exp (PyComplex.prod alpha l) ;;
        Ok (with_info return_info result
              (Info.mk 0 true None None None None None)))%result.
Proof.
  intros _ Hx Hax Hnan Hinf. cbn zeta.
  unfold aqueeq_binomial.
  unfold PyComplex.ne in Hx. apply negb_true_iff in Hx. rewrite Hx.
  rewrite (nan_component_eq y PyComplex.zero Hnan).
  rewrite (Commute.eq_neg_swap x y).
  rewrite (nan_component_eq y (PyComplex.neg x) Hnan).
  assert (Hs : PyComplex.eq (PyComplex.sum x y) PyComplex.zero = false).
  { apply nan_component_eq. rewrite (Commute.sum_comm x y).
    now apply nan_component_sum. }
  rewrite Hs. cbn [andb]. unfold preconditioning.
  rewrite Hax, (nan_component_abs y Hnan Hinf), !bind_call_ok.
  change (PyFloat.gt ax nan) with (PyFloat.lt nan ax).
  rewrite (NaN.nan_lt_r ax _ NaN.nan_isnan),
    (NaN.nan_lt_l _ ax NaN.nan_isnan).
  rewrite bind_warn.
  rewrite <- (lift_log_exp alpha (PyComplex.sum x y)
                (fun result =>
                   with_info return_info result
                     (Info.mk 0 true None None None None None))).
  destruct (log_exp alpha (PyComplex.sum x y)); simpl; auto.
Qed.

End NaNOperand.

(** ** The operands past the edge cases, and the zero sum *)

Section Operands.
Context {libm : Libm}.
Variables (tol : float) (max_terms : Z) (boundary_threshold : float)
          (return_info : bool).

Local Abbreviation evaluate x y alpha :=
  (aqueeq_binomial x y alpha tol max_terms boundary_threshold return_info).

Lemma zero_plus_zero (x y : complex) :
  PyComplex.eq x PyComplex.zero = true ->
  PyComplex.eq y PyComplex.zero = true ->
  PyComplex.eq (PyComplex.sum x y) PyComplex.zero = true.
Proof.
  unfold PyComplex.eq, PyComplex.zero. simpl.
  intros Hx Hy. apply andb_true_iff in Hx, Hy.
  destruct Hx as [Hx1 Hx2], Hy as [Hy1 Hy2].
  apply RealAxis.eq_zero_is_zero in Hx1, Hx2, Hy1, Hy2.
  apply andb_true_iff.
  split; apply RealAxis.eq_zero_is_zero, RealAxis.add_zero_zero; assumption.
Qed.

(** X17.  Operands that no edge case resolves are both different from
    zero, so that neither division of the preconditioner, [x / y] or
    [y / x], raises [ZeroDivisionError]. *)
Theorem preconditioner_divides (x y alpha : complex) :
  edge_case x y alpha = false ->
  PyComplex.ne x PyComplex.zero = true
  /\ PyComplex.ne y PyComplex.zero = true
  /\ (exists z, PyComplex.quot x y = Ok z)
  /\ (exists z, PyComplex.quot y x = Ok z).
Proof.
  unfold edge_case, zero_x, zero_y, zero_sum, PyComplex.ne.
  intros He.
  apply orb_false_iff in He. destruct He as [He Hsum].
  apply orb_false_iff in He. destruct He as [He _].
  apply orb_false_iff in He. destruct He as [Hzx Hzy].
  assert (Hxy : PyComplex.eq x PyComplex.zero = false
                /\ PyComplex.eq y PyComplex.zero = false).
  { destruct (PyComplex.eq x PyComplex.zero) eqn:Hx,
             (PyComplex.eq y PyComplex.zero) eqn:Hy;
      try discriminate; auto.
    now rewrite (zero_plus_zero x y Hx Hy) in Hsum. }
  destruct Hxy as [Hx Hy].
  assert (Hx' : PyComplex.ne x PyComplex.zero = true).
  { unfold PyComplex.ne. now rewrite Hx. }
  assert (Hy' : PyComplex.ne y PyComplex.zero = true).
  { unfold PyComplex.ne. now rewrite Hy. }
  rewrite Hx, Hy.
  repeat split; trivial; now apply quot_defined.
Qed.

(** X16.  For a finite [x] and a real [alpha] that is an integer or
    greater than 0, [evaluate(x, -x, alpha)] returns [0 + 0j] without a
    warning, with [terms_used = 0] and [z = None] in the diagnostics, and
    [used_fallback = True] exactly when [alpha] is not an integer. *)
Theorem zero_sum_diagnostics (x alpha : complex) :
  PyComplex.isfinite x = true ->
  is_real alpha = true ->
  PyFloat.is_integer (real alpha) = true
  \/ PyFloat.gt (real alpha) 0 = true ->
  evaluate x (PyComplex.neg x) alpha
  = ([], Value (with_info return_info PyComplex.zero
                  (Info.mk 0 (negb (PyFloat.is_integer (real alpha)))
                     None None None None None))).
Proof.
  intros Hx Ha Hc.
  rewrite (zero_sum_eval tol max_terms boundary_threshold return_info
             x alpha Hx), Ha.
  destruct (PyFloat.is_integer (real alpha)); [reflexivity | ].
  destruct Hc as [Hc | Hc]; [discriminate | ].
  now rewrite Hc.
Qed.

End Operands.

(** ** The reference library *)

(** The correctly rounded [hypot] is exact on the axes. *)
Lemma reference_hypot_axis : hypot_axis (libm := Reference.libm).
Proof.
  intros v w Hw. apply RealAxis.eq_zero_is_zero in Hw. destruct Hw as [s Hw].
  change (hypot v w) with (Reference.hypot v w).
  unfold Reference.hypot. rewrite Hw.
  rewrite <- (SF2Prim_Prim2SF (PrimFloat.abs v)), FloatAxioms.abs_spec.
  f_equal. now destruct (Prim2SF v).
Qed.

(** ** The program on concrete inputs

    The library is [Reference.libm]. *)

Section Examples.

Local Open Scope float_scope.
Existing Instance Reference.libm.

Let evaluate (x y alpha : complex) (max_terms : Z) (return_info : bool)
  : M returned :=
  aqueeq_binomial x y alpha default_tol max_terms
    default_boundary_threshold return_info.

(** [Fraction(1/3).limit_denominator(1000)] is [1/3]: an odd
    denominator. *)
Example one_third_denominator :
  (f <- Fraction.of_float 0x1.5555555555555p-2 ;;
   Fraction.limit_denominator f 1000)%result
  = Ok (Fraction.mk 1 3).
Proof. vm_compute. reflexivity. Qed.

(** [evaluate(1, 0.5, 0.5)] with the defaults: the series converges at
    the 31st term. *)
Example series_converges :
  evaluate (Complex 1 0) (Complex 0.5 0) (Complex 0.5 0) 100 true
  = ([], Value (Complex 1.2247448713918379 0,
                Some (Info.mk 31 false (Some (Complex 0.5 0)) None
                        (Some 7.7043038859429795e-13) (Some true)
                        (Some (Complex 1 0))))).
Proof. vm_compute. reflexivity. Qed.

(** C2 fails on the code.  [evaluate(1, 0.5, 0.5, max_terms=1,
    return_info=True)]: [abs(z) = 0.5] is outside the band, the budget is
    [max_terms = 1], the loop runs its one iteration without converging,
    and the diagnostics report [terms_used = 2]. *)
Theorem terms_used_exceeds_budget :
  effective_max 1 0.5 default_boundary_threshold = 1%Z
  /\ evaluate (Complex 1 0) (Complex 0.5 0) (Complex 0.5 0) 1 true
     = ([NoConvergence 1 0.5 0.25],
        Value (Complex 1.25 0,
               Some (Info.mk 2 false (Some (Complex 0.5 0)) None
                       (Some 0.25) (Some false) (Some (Complex 1 0))))).
Proof. split; vm_compute; reflexivity. Qed.

(** The loop that goes to NaN is exhausted without a warning:
    [evaluate(1, -0.5, 1e300)] adds infinities of both signs, the
    comparison [abs(term) >= tol * abs(S)] is false on NaN, and the call
    returns NaN with [converged = False] and no warning. *)
Example nan_exhaustion_is_silent :
  evaluate (Complex 1 0) (Complex (-0.5) 0) (Complex 1e300 0) 100 true
  = ([], Value (Complex nan nan,
                Some (Info.mk 101 false (Some (Complex (-0.5) 0)) None
                        (Some nan) (Some false) (Some (Complex 1 0))))).
Proof. vm_compute. reflexivity. Qed.

(** *** The claims that fail as they are stated *)

(** C1 fails as stated: [alpha = -2] is real and not positive, and
    [evaluate(1, -1, -2)] returns 0 where the claim has a domain error. *)
Lemma cancelling_integer_is_no_error :
  is_real (Complex (-2) 0) = true
  /\ PyFloat.le (-2) 0 = true
  /\ evaluate (Complex 1 0) (PyComplex.neg (Complex 1 0)) (Complex (-2) 0)
       100 false
     = ([], Value (PyComplex.zero, None)).
Proof. repeat split; vm_compute; reflexivity. Qed.

(** C8 fails as stated: for [x = 1.5 + 1j] and [y = 1.8 + 0.1j] the
    magnitudes differ, [abs(x) < abs(y)], the preconditioner divides [x]
    by [y], and the magnitude of the rounded quotient is 1, not below
    it. *)
Lemma rounded_ratio_reaches_one :
  let x := Complex 1.5 1 in
  let y := Complex 1.8 0.1 in
  let z := Complex 0.86153846153846159 0.50769230769230766 in
  PyComplex.abs x = Ok 1.8027756377319946
  /\ PyComplex.abs y = Ok 1.8027756377319948
  /\ PyFloat.lt 1.8027756377319946 1.8027756377319948 = true
  /\ PyComplex.quot x y = Ok z
  /\ PyComplex.abs z = Ok 1
  /\ PyFloat.lt 1 1 = false
  /\ fst (evaluate x y (Complex 0.5 0) 100 true)
     = [BoundaryFallback 1 default_boundary_threshold].
Proof. repeat split; vm_compute; reflexivity. Qed.


(** C4 fails as stated: [x = -2], [y = 0] and [alpha = 1025] meet every
    condition of the claim, the denominator being 1, and
    [2.0 ** 1025.0] overflows; the call raises [OverflowError], which
    the [except] clause does not catch, where the claim has the value
    [-(2 ** 1025)]. *)
Lemma real_root_overflows :
  is_real (Complex (-2) 0) = true
  /\ PyFloat.lt (-2) 0 = true
  /\ is_real (Complex 1025 0) = true
  /\ (f <- Fraction.of_float 1025 ;;
      Fraction.limit_denominator f 1000)%result
     = Ok (Fraction.mk 1025 1)
  /\ Z.odd 1 = true
  /\ float_pow 2 1025 = Raises OverflowError
  /\ evaluate (Complex (-2) 0) PyComplex.zero (Complex 1025 0) 100 true
     = ([], Exception (Library OverflowError)).
Proof. repeat split; vm_compute; reflexivity. Qed.

End Examples.

(** ** The theorems at concrete inputs *)

Section Witnesses.

Local Open Scope float_scope.

Let tol := default_tol.
Let threshold := default_boundary_threshold.

Lemma zero_sum_domain_error_witness :
  PyComplex.isfinite (Complex 2 3) = true
  /\ snd (aqueeq_binomial (libm := Reference.libm) (Complex 2 3)
            (PyComplex.neg (Complex 2 3)) (Complex (-0.5) 0)
            tol 100 threshold false)
     = Exception DomainError.
Proof.
  split; [reflexivity | ].
  apply (zero_sum_domain_error (libm := Reference.libm) tol 100 threshold
           false (Complex 2 3) (Complex (-0.5) 0)); [reflexivity | ].
  right. split; reflexivity.
Defined.

Lemma zero_zero_integer_power_witness :
  is_real PyComplex.zero = true
  /\ PyFloat.is_integer (real PyComplex.zero) = true
  /\ aqueeq_binomial (libm := Reference.libm) PyComplex.zero PyComplex.zero
       PyComplex.zero tol 100 threshold false
     = ([], Value (PyComplex.zero, None)).
Proof.
  split; [reflexivity | split; [reflexivity | ]].
  apply (zero_zero_integer_power (libm := Reference.libm) tol 100 threshold
           false PyComplex.zero); reflexivity.
Defined.

Lemma zero_operand_identity_witness :
  PyComplex.eq PyComplex.zero PyComplex.zero = true
  /\ PyComplex.ne (Complex 2 0) PyComplex.zero = true
  /\ snd (aqueeq_binomial (libm := Reference.libm) PyComplex.zero
            (Complex 2 0) PyComplex.one tol 100 threshold true)
     = Value (Complex 2 0,
              Some (Info.mk 0 false (Some PyComplex.zero)
                      None None None None)).
Proof.
  split; [reflexivity | split; [reflexivity | ]].
  apply (zero_operand_identity (libm := Reference.libm) tol 100 threshold
           true PyComplex.zero (Complex 2 0) PyComplex.one); reflexivity.
Defined.

Lemma real_odd_root_override_witness :
  Fraction.limit_denominator (Fraction.mk 3 1) 1000 = Ok (Fraction.mk 3 1)
  /\ float_pow (Libm := Reference.libm) 8 3 = Returns 512
  /\ aqueeq_binomial (libm := Reference.libm) (Complex (-8) 0)
       PyComplex.zero (Complex 3 0) tol 100 threshold true
     = ([], Value (Complex (-512) 0,
                   Some (Info.mk 0 false (Some PyComplex.zero)
                           (Some "real odd root"%string) None None None))).
Proof.
  split; [reflexivity | split; [reflexivity | ]].
  exact (real_odd_root_override (libm := Reference.libm) tol 100 threshold
           true (Complex (-8) 0) PyComplex.zero (Complex 3 0)
           (Fraction.mk 3 1) (Fraction.mk 3 1)
           eq_refl eq_refl eq_refl eq_refl eq_refl eq_refl eq_refl).
Defined.



Lemma preconditioner_selects_witness :
  PyComplex.abs (libm := Reference.libm) (Complex 1 0) = Ok 1
  /\ PyComplex.abs (libm := Reference.libm) (Complex 8 0) = Ok 8
  /\ exists A B z : complex,
       ((A = Complex 8 0 /\ B = Complex 1 0 /\ PyFloat.lt 1 8 = true)
        \/ (A = Complex 1 0 /\ B = Complex 8 0 /\ PyFloat.gt 1 8 = true))
       /\ PyComplex.quot B A = Ok z
       /\ aqueeq_binomial (libm := Reference.libm) (Complex 1 0)
            (Complex 8 0) (Complex 0.5 0) tol 100 threshold false
          = boundary_policy (libm := Reference.libm) (Complex 1 0)
              (Complex 8 0) (Complex 0.5 0) A z tol 100 threshold false
       /\ exists abs_z : float,
            PyComplex.abs (libm := Reference.libm) z = Ok abs_z
            /\ PyFloat.lt abs_z 1 = true.
Proof.
  split; [reflexivity | split; [reflexivity | ]].
  destruct (preconditioner_selects (libm := Reference.libm) tol 100
              threshold false (Complex 1 0) (Complex 8 0) (Complex 0.5 0)
              1 8 eq_refl eq_refl eq_refl eq_refl eq_refl eq_refl eq_refl
              eq_refl)
    as (A & B & z & Hsel & Hq & Hev & Hbound).
  exists A, B, z.
  split; [exact Hsel | split; [exact Hq | split; [exact Hev | ]]].
  apply Hbound; [exact reference_hypot_axis | reflexivity | reflexivity].
Defined.

(** [evaluate(2, 1, 0.5, max_terms=1)]: the base is 2 and the ratio
    0.5. *)
Let two_one_preconditioned :
  preconditioned (libm := Reference.libm) (Complex 2 0) (Complex 1 0)
    (Complex 2 0) (Complex 0.5 0).
Proof.
  exists 2, 1.
  split; [reflexivity | split; [reflexivity | right ]].
  repeat split; reflexivity.
Defined.


(** [evaluate(1, 0.5, 0.5, max_terms=1)]: the one term of the budget is
    added, no test stops the loop, and the call warns. *)
Let one_term : M returned :=
  aqueeq_binomial (libm := Reference.libm) (Complex 1 0) (Complex 0.5 0)
    (Complex 0.5 0) tol 1 threshold true.

Let one_term_info : Info.t :=
  Info.mk 2 false (Some (Complex 0.5 0)) None (Some 0.25) (Some false)
    (Some (Complex 1 0)).

Lemma terms_used_range_witness :
  snd one_term = Value (Complex 1.25 0, Some one_term_info)
  /\ (0 <= Info.terms_used one_term_info <= 4)%Z.
Proof.
  split; [reflexivity | ].
  exact (proj1 (terms_used_range (libm := Reference.libm) tol 1 threshold
                  (Complex 1 0) (Complex 0.5 0) (Complex 0.5 0)
                  (Complex 1.25 0) one_term_info eq_refl)).
Defined.

Lemma warnings_match_diagnostics_witness :
  fst one_term = [NoConvergence 1 0.5 0.25]
  /\ Info.used_fallback one_term_info = false
  /\ Info.converged one_term_info = Some false
  /\ (1 <= Info.terms_used one_term_info)%Z
  /\ Info.last_term_abs one_term_info = Some 0.25.
Proof.
  split; [reflexivity | ].
  exact (proj2 (warnings_match_diagnostics (libm := Reference.libm) tol 1
                  threshold (Complex 1 0) (Complex 0.5 0) (Complex 0.5 0)
                  (Complex 1.25 0) one_term_info eq_refl)).
Defined.

Lemma series_result_witness :
  exists abs_term abs_S : float,
    PyComplex.abs (libm := Reference.libm) (Complex 0.25 0) = Ok abs_term
    /\ PyComplex.abs (libm := Reference.libm) (Complex 1.25 0) = Ok abs_S
    /\ aqueeq_binomial (libm := Reference.libm) (Complex 2 0) (Complex 1 0)
         (Complex 0.5 0) tol 1 threshold true
       = (if (1 <=? 2)%Z && PyFloat.ge abs_term (tol * abs_S)
          then [NoConvergence 1 0.5 abs_term] else [],
          lift (l <- cmath_log (Libm := Reference.libm) (Complex 2 0) ;;
                A_power <- cmath_exp (Libm := Reference.libm)
                             (PyComplex.prod (Complex 0.5 0) l) ;;
                Ok (PyComplex.prod A_power (Complex 1.25 0),
                    Some (Info.mk 2 false (Some (Complex 0.5 0)) None
                            (Some abs_term)
                            (Some (PyFloat.lt abs_term (tol * abs_S)))
                            (Some (Complex 2 0)))))%result).
Proof.
  apply (series_result (libm := Reference.libm) tol 1 threshold true
           (Complex 2 0) (Complex 1 0) (Complex 0.5 0)
           (Complex 2 0) (Complex 0.5 0) 0.5
           (Complex 1.25 0) (Complex 0.25 0) 2);
    [lia | reflexivity | exact two_one_preconditioned
     | reflexivity | reflexivity | reflexivity].
Defined.

Lemma empty_budget_witness :
  PyComplex.abs (libm := Reference.libm) PyComplex.one = Ok 1
  /\ aqueeq_binomial (libm := Reference.libm) (Complex 2 0) (Complex 1 0)
       (Complex 0.5 0) tol 0 threshold true
     = ([NoConvergence 0 0.5 1],
        lift (l <- cmath_log (Libm := Reference.libm) (Complex 2 0) ;;
              A_power <- cmath_exp (Libm := Reference.libm)
                           (PyComplex.prod (Complex 0.5 0) l) ;;
              Ok (PyComplex.prod A_power PyComplex.one,
                  Some (Info.mk 1 false (Some (Complex 0.5 0)) None
                          (Some 1) (Some false)
                          (Some (Complex 2 0)))))%result).
Proof.
  split; [reflexivity | ].
  apply (empty_budget (libm := Reference.libm) tol 0 threshold true
           (Complex 2 0) (Complex 1 0) (Complex 0.5 0)
           (Complex 2 0) (Complex 0.5 0) 0.5 1);
    [lia | reflexivity | exact two_one_preconditioned
     | reflexivity | reflexivity | reflexivity].
Defined.

Lemma loop_end_witness :
  series_loop (libm := Reference.libm) (series_fuel 1) (Complex 0.5 0)
    (Complex 0.5 0) tol 1 PyComplex.one PyComplex.one 1
  = Ok (Complex 1.25 0, Complex 0.25 0, 2%Z)
  /\ (1 <= 2 <= Z.max 1 (1 + 1))%Z.
Proof.
  split; [reflexivity | ].
  exact (proj1 (loop_end (libm := Reference.libm) (Complex 0.5 0)
                  (Complex 0.5 0) tol 1 (Complex 1.25 0) (Complex 0.25 0) 2
                  eq_refl)).
Defined.

Lemma zero_y_power_witness :
  is_real (Complex 2 0) && is_real PyComplex.one && PyFloat.lt 2 0 = false
  /\ aqueeq_binomial (libm := Reference.libm) (Complex 2 0) PyComplex.zero
       PyComplex.one tol 100 threshold true
     = ([], Value (Complex 2 0,
                   Some (Info.mk 0 false (Some PyComplex.zero)
                           None None None None))).
Proof.
  split; [reflexivity | ].
  apply (zero_y_power (libm := Reference.libm) tol 100 threshold true
           (Complex 2 0) PyComplex.zero PyComplex.one); reflexivity.
Defined.

Lemma even_denominator_power_witness :
  Fraction.limit_denominator (Fraction.mk 1 2) 1000 = Ok (Fraction.mk 1 2)
  /\ aqueeq_binomial (libm := Reference.libm) (Complex (-4) 0)
       PyComplex.zero (Complex 0.5 0) tol 100 threshold false
     = ([], lift (result <- complex_pow (Libm := Reference.libm)
                              (Complex (-4) 0) (Complex 0.5 0) ;;
                  Ok (result, None))%result).
Proof.
  split; [reflexivity | ].
  apply (even_denominator_power (libm := Reference.libm) tol 100 threshold
           false (Complex (-4) 0) PyComplex.zero (Complex 0.5 0)
           (Fraction.mk 1 2) (Fraction.mk 1 2)); reflexivity.
Defined.

(** [evaluate(-8, 0, 2)] is [-64], and [evaluate(-8, 0, 0)] is [-1]. *)
Lemma integer_exponent_root_witness :
  PyFloat.is_integer 2 = true
  /\ float_pow (Libm := Reference.libm) 8 2 = Returns 64
  /\ aqueeq_binomial (libm := Reference.libm) (Complex (-8) 0)
       PyComplex.zero (Complex 2 0) tol 100 threshold false
     = ([], Value (Complex (-64) 0, None))
  /\ aqueeq_binomial (libm := Reference.libm) (Complex (-8) 0)
       PyComplex.zero PyComplex.zero tol 100 threshold false
     = ([], Value (Complex (-1) 0, None)).
Proof.
  split; [reflexivity | split; [reflexivity | split]].
  - exact (integer_exponent_root (libm := Reference.libm) tol 100
             threshold false (Complex (-8) 0) PyComplex.zero (Complex 2 0)
             eq_refl eq_refl eq_refl eq_refl eq_refl).
  - exact (integer_exponent_root (libm := Reference.libm) tol 100
             threshold false (Complex (-8) 0) PyComplex.zero PyComplex.zero
             eq_refl eq_refl eq_refl eq_refl eq_refl).
Defined.

Lemma infinite_exponent_overflows_witness :
  PyFloat.isinf infinity = true
  /\ aqueeq_binomial (libm := Reference.libm) (Complex (-8) 0)
       PyComplex.zero (Complex infinity 0) tol 100 threshold false
     = ([], Exception (Library OverflowError)).
Proof.
  split; [reflexivity | ].
  apply (infinite_exponent_overflows (libm := Reference.libm) tol 100
           threshold false (Complex (-8) 0) PyComplex.zero
           (Complex infinity 0)); reflexivity.
Defined.

Lemma nan_exponent_power_witness :
  isnan nan = true
  /\ aqueeq_binomial (libm := Reference.libm) (Complex (-8) 0)
       PyComplex.zero (Complex nan 0) tol 100 threshold false
     = ([], lift (result <- complex_pow (Libm := Reference.libm)
                              (Complex (-8) 0) (Complex nan 0) ;;
                  Ok (result, None))%result).
Proof.
  split; [reflexivity | ].
  apply (nan_exponent_power (libm := Reference.libm) tol 100 threshold
           false (Complex (-8) 0) PyComplex.zero (Complex nan 0));
    reflexivity.
Defined.


Lemma nan_operand_equal_magnitude_witness :
  let out :=
    aqueeq_binomial (libm := Reference.libm) PyComplex.one (Complex nan 0)
      (Complex 0.5 0) tol 100 threshold true in
  PyComplex.abs (libm := Reference.libm) PyComplex.one = Ok 1
  /\ PyComplex.abs (libm := Reference.libm) (Complex nan 0) = Ok nan
  /\ fst out = [EqualMagnitude]
  /\ snd out = lift
       (l <- cmath_log (Libm := Reference.libm)
               (PyComplex.sum PyComplex.one (Complex nan 0)) ;;
        result <- cmath_exp (Libm := Reference.libm)
                    (PyComplex.prod (Complex 0.5 0) l) ;;
        Ok (result,
            Some (Info.mk 0 true None None None None None)))%result.
Proof.
  split; [reflexivity | split; [reflexivity | ]].
  apply (nan_operand_equal_magnitude (libm := Reference.libm) tol 100
           threshold true PyComplex.one (Complex nan 0) (Complex 0.5 0) 1);
    reflexivity.
Defined.

Lemma preconditioner_divides_witness :
  edge_case (Complex 1 0) (Complex 0.5 0) (Complex 0.5 0) = false
  /\ PyComplex.ne (Complex 1 0) PyComplex.zero = true
  /\ PyComplex.ne (Complex 0.5 0) PyComplex.zero = true
  /\ (exists z, PyComplex.quot (Complex 1 0) (Complex 0.5 0) = Ok z)
  /\ (exists z, PyComplex.quot (Complex 0.5 0) (Complex 1 0) = Ok z).
Proof.
  split; [reflexivity | ].
  apply (preconditioner_divides (Complex 1 0) (Complex 0.5 0)
           (Complex 0.5 0)); reflexivity.
Defined.

Lemma zero_sum_diagnostics_witness :
  PyFloat.is_integer 0.5 = false
  /\ PyFloat.gt 0.5 0 = true
  /\ aqueeq_binomial (libm := Reference.libm) (Complex 2 3)
       (PyComplex.neg (Complex 2 3)) (Complex 0.5 0) tol 100 threshold true
     = ([], Value (PyComplex.zero,
                   Some (Info.mk 0 true None None None None None))).
Proof.
  split; [reflexivity | split; [reflexivity | ]].
  apply (zero_sum_diagnostics (libm := Reference.libm) tol 100 threshold
           true (Complex 2 3) (Complex 0.5 0));
    [reflexivity | reflexivity | right; reflexivity].
Defined.

End Witnesses.
